(** * Output writer of the scanner: a shallow embedding of [v2/pkg/output/output.go]

    The development follows the Go file top-down: text helpers standing for
    the [strings], [strconv], [regexp] and [encoding/base64] calls the file
    makes, then [extractResponseData], [sanitizeFileName],
    [sendStatusChangeRequest], [Write], [Request] and [NewStandardWriter].

    Go strings and byte slices are byte sequences; both are [list ascii]
    here.  Effects (HTTP calls, sink writes, mutex operations, log lines)
    are recorded in an explicit trace, and a run-time panic or a process
    exit is a value of the result type. *)

From Stdlib Require Import ZArith Ascii String List Lia DecimalString.
From stdpp Require Import gmap strings list.

Local Open Scope Z_scope.

(** ** Text *)

Abbreviation text := (list ascii).

(** A Go string literal. *)
Definition str (s : string) : text := list_ascii_of_string s.

Definition code (c : ascii) : N := N_of_ascii c.

Definition LF : ascii := ascii_of_N 10.
Definition CR : ascii := ascii_of_N 13.
Definition CRLF : text := [CR; LF].

(** ** Character classes of Go's [regexp] (RE2 syntax, ASCII Perl classes) *)

(** [\d] *)
Definition is_digit (c : ascii) : bool :=
  (48 <=? code c)%N && (code c <=? 57)%N.

Definition is_upper (c : ascii) : bool :=
  (65 <=? code c)%N && (code c <=? 90)%N.

Definition is_lower (c : ascii) : bool :=
  (97 <=? code c)%N && (code c <=? 122)%N.

(** [\w] is [[0-9A-Za-z_]] *)
Definition is_word (c : ascii) : bool :=
  is_digit c || is_upper c || is_lower c || (code c =? 95)%N.

(** [[\w-]] *)
Definition is_name_char (c : ascii) : bool :=
  is_word c || (code c =? 45)%N.

(** [\s] is [[\t\n\f\r ]] *)
Definition is_space (c : ascii) : bool :=
  (code c =? 9)%N || (code c =? 10)%N || (code c =? 12)%N
  || (code c =? 13)%N || (code c =? 32)%N.

(** [[\n\r]] *)
Definition is_eol (c : ascii) : bool :=
  (code c =? 10)%N || (code c =? 13)%N.

(** [[^\n\r]] *)
Definition not_eol (c : ascii) : bool := negb (is_eol c).

(** [.] without the [s] flag: anything but a line feed *)
Definition is_dot (c : ascii) : bool := negb (code c =? 10)%N.

(** ** A backtracking matcher for the fragment of RE2 the file uses

    Go's [regexp] returns the leftmost match and, among the leftmost ones,
    the one a backtracking search finds first.  The patterns of the file
    are sequences of literals, classes, greedy repetitions of a class,
    capture groups and the assertions [^] and [(?m)^]; the matcher below is
    the backtracking search for exactly that fragment.

    The matcher works on bytes.  The classes above are ASCII, and the two
    classes that accept non-ASCII characters ([.] and [[^\n\r]]) accept
    every byte of a multi-byte rune, so the byte ranges matched are those of
    the rune-level search. *)

Inductive regex : Type :=
| Lit (c : ascii)
| Class (p : ascii -> bool)
| Star (p : ascii -> bool)
| Plus (p : ascii -> bool)
| Seq (r1 r2 : regex)
| Group (i : nat) (r : regex)
| BeginText
| BeginLine.

(** A literal string as a regex. *)
Fixpoint lits (s : text) (r : regex) : regex :=
  match s with
  | [] => r
  | c :: s' => Seq (Lit c) (lits s' r)
  end.

Section Matcher.
Context {R : Type}.

(** The continuation receives the previous character ([None] at the
    beginning of the text) and the rest of the input. *)
Fixpoint star (p : ascii -> bool) (k : option ascii -> text -> option R)
    (prev : option ascii) (s : text) : option R :=
  match s with
  | c :: t =>
      if p c then
        match star p k (Some c) t with
        | Some r => Some r
        | None => k prev s
        end
      else k prev s
  | [] => k prev []
  end.

Definition plus (p : ascii -> bool) (k : option ascii -> text -> option R)
    (prev : option ascii) (s : text) : option R :=
  match s with
  | c :: t => if p c then star p k (Some c) t else None
  | [] => None
  end.

Fixpoint run (r : regex) (k : list text -> option ascii -> text -> option R)
    (caps : list text) (prev : option ascii) (s : text) : option R :=
  match r with
  | Lit c =>
      match s with
      | x :: t => if Ascii.eqb x c then k caps (Some x) t else None
      | [] => None
      end
  | Class p =>
      match s with
      | x :: t => if p x then k caps (Some x) t else None
      | [] => None
      end
  | Star p => star p (k caps) prev s
  | Plus p => plus p (k caps) prev s
  | Seq r1 r2 => run r1 (run r2 k) caps prev s
  | Group i r0 =>
      run r0 (fun caps' prev' s' =>
                k (<[i := take (length s - length s') s]> caps') prev' s')
          caps prev s
  | BeginText =>
      match prev with
      | None => k caps prev s
      | Some _ => None
      end
  | BeginLine =>
      match prev with
      | None => k caps prev s
      | Some c => if Ascii.eqb c LF then k caps prev s else None
      end
  end.
End Matcher.

(** A match attempt at the current position: the submatches (index 0 is the
    whole match) and the rest of the input. *)
Definition matchAt (r : regex) (groups : nat) (prev : option ascii) (s : text)
  : option (list text * text) :=
  run r (fun caps _ s' => Some (<[0%nat := take (length s - length s') s]> caps, s'))
      (replicate (S groups) []) prev s.

(** Leftmost match. *)
Fixpoint find (r : regex) (groups : nat) (prev : option ascii) (s : text)
  : option (list text * text) :=
  match matchAt r groups prev s with
  | Some m => Some m
  | None =>
      match s with
      | [] => None
      | c :: t => find r groups (Some c) t
      end
  end.

(** [Regexp.FindStringSubmatch]: a nil slice when there is no match. *)
Definition FindStringSubmatch (r : regex) (groups : nat) (s : text) : list text :=
  match find r groups None s with
  | Some (caps, _) => caps
  | None => []
  end.

(** [Regexp.FindAllStringSubmatch] with [n = -1]: successive
    non-overlapping matches.  [skip] counts the characters of the last match
    still to be stepped over.  After an empty match the search resumes one
    character further, as in Go. *)
Fixpoint findAll (r : regex) (groups : nat) (skip : nat) (prev : option ascii)
    (s : text) {struct s} : list (list text) :=
  match skip with
  | S n =>
      match s with
      | [] => []
      | c :: t => findAll r groups n (Some c) t
      end
  | O =>
      match matchAt r groups prev s with
      | Some (caps, s') =>
          caps ::
            match s with
            | [] => []
            | c :: t =>
                findAll r groups (length s - length s' - 1) (Some c) t
            end
      | None =>
          match s with
          | [] => []
          | c :: t => findAll r groups 0 (Some c) t
          end
      end
  end.

Definition FindAllStringSubmatch (r : regex) (groups : nat) (s : text)
  : list (list text) :=
  findAll r groups 0 None s.

(** [Regexp.ReplaceAll] with an empty replacement: every match is
    dropped. *)
Fixpoint dropAll (r : regex) (skip : nat) (prev : option ascii) (s : text)
    {struct s} : text :=
  match s with
  | [] => []
  | c :: t =>
      match skip with
      | S n => dropAll r n (Some c) t
      | O =>
          match matchAt r 0 prev s with
          | Some (_, s') =>
              match (length s - length s')%nat with
              | O => c :: dropAll r 0 (Some c) t
              | S n => dropAll r n (Some c) t
              end
          | None => c :: dropAll r 0 (Some c) t
          end
      end
  end.

(** ** [strings] and [strconv] *)

(** [strings.ToLower] on ASCII text, which is what it is applied to: the
    header names are matched by [[\w-]+]. *)
Definition lower_char (c : ascii) : ascii :=
  if is_upper c then ascii_of_N (code c + 32) else c.

Definition ToLower (s : text) : text := map lower_char s.

Fixpoint HasPrefix (s prefix : text) {struct prefix} : bool :=
  match prefix, s with
  | [], _ => true
  | p :: prefix', c :: s' => Ascii.eqb c p && HasPrefix s' prefix'
  | _ :: _, [] => false
  end.

(** [strings.TrimPrefix] *)
Definition TrimPrefix (s prefix : text) : text :=
  if HasPrefix s prefix then drop (length prefix) s else s.

(** [strings.ReplaceAll] for a non-empty [old]: non-overlapping occurrences
    are replaced from left to right.  [skip] counts the characters of the
    occurrence just replaced that are still to be stepped over. *)
Fixpoint replaceFrom (old new : text) (skip : nat) (s : text) {struct s} : text :=
  match s with
  | [] => []
  | c :: t =>
      match skip with
      | S n => replaceFrom old new n t
      | O =>
          if HasPrefix s old
          then new ++ replaceFrom old new (length old - 1) t
          else c :: replaceFrom old new 0 t
      end
  end.

Definition ReplaceAll (s old new : text) : text := replaceFrom old new 0 s.

(** Value of a string of decimal digits. *)
Definition digit_val (c : ascii) : Z := Z.of_N (code c) - 48.

Definition decimal (s : text) : Z :=
  fold_left (fun acc c => 10 * acc + digit_val c) s 0.

Definition maxInt : Z := 2 ^ 63 - 1.
Definition minInt : Z := - 2 ^ 63.

(** [strconv.Atoi] on a 64-bit platform, value and success flag: an
    optional sign followed by decimal digits; on a syntax error the value is
    0, on a range error it is the nearest bound. *)
Definition Atoi (s : text) : Z * bool :=
  let '(neg, ds) :=
    match s with
    | c :: t =>
        if Ascii.eqb c "-" then (true, t)
        else if Ascii.eqb c "+" then (false, t)
        else (false, s)
    | [] => (false, [])
    end in
  match ds with
  | [] => (0, false)
  | _ :: _ =>
      if forallb is_digit ds then
        let v := decimal ds in
        if neg then
          if 2 ^ 63 <? v then (minInt, false) else (- v, true)
        else
          if maxInt <? v then (maxInt, false) else (v, true)
      else (0, false)
  end.

(** [fmt.Sprintf("%d", n)] *)
Definition Itoa (n : Z) : text :=
  str (NilZero.string_of_int (Z.to_int n)).

(** ** [extractResponseData] *)

(** The header pattern, piece by piece: [(?m)^], group 1 [[\w-]+], [:],
    [\s*], group 2 [[^\n\r]*], and [[\n\r]+]. *)
Definition headerPattern : regex :=
  Seq BeginLine
   (Seq (Group 1 (Plus is_name_char))
    (Seq (Lit ":")
     (Seq (Star is_space)
      (Seq (Group 2 (Star not_eol))
           (Plus is_eol))))).

(** The status pattern, piece by piece: [^], [HTTP/], group 1 [\d+\.\d+],
    [\s+], group 2 [\d+], [\s+] and a final [.*]. *)
Definition statusPattern : regex :=
  Seq BeginText
   (lits (str "HTTP/")
    (Seq (Group 1 (Seq (Plus is_digit) (Seq (Lit ".") (Plus is_digit))))
     (Seq (Plus is_space)
      (Seq (Group 2 (Plus is_digit))
       (Seq (Plus is_space)
            (Star is_dot)))))).

(** The loop over the header matches: a later name overwrites an earlier
    one. *)
Definition collectHeaders (matches : list (list text)) : gmap text text :=
  foldl (fun headers m => <[ToLower (nth 1 m []) := nth 2 m []]> headers)
        ∅ matches.

Definition extractResponseData (rawResponse : text) : text * Z * gmap text text :=
  let matches := FindAllStringSubmatch headerPattern 2 rawResponse in
  let headers := collectHeaders matches in
  let statusMatch := FindStringSubmatch statusPattern 2 rawResponse in
  let '(httpVersion, statusCode) :=
    if (2 <? length statusMatch)%nat
    then (nth 1 statusMatch [], fst (Atoi (nth 2 statusMatch [])))
    else ([], 0) in
  (httpVersion, statusCode, headers).

(** ** [encoding/base64]: [StdEncoding.EncodeToString] *)

Definition encodeStd : text :=
  str "ABCDEFGHIJKLMNOPQRSTUVWXYZabcdefghijklmnopqrstuvwxyz0123456789+/".

Definition padChar : ascii := "="%char.

Definition b64char (i : N) : ascii := nth (N.to_nat i) encodeStd padChar.

Definition sextet (v : N) (shift : N) : ascii :=
  b64char (N.land (N.shiftr v shift) 63).

Fixpoint EncodeToString (src : text) : text :=
  match src with
  | a :: b :: c :: rest =>
      let v := N.lor (N.lor (N.shiftl (code a) 16) (N.shiftl (code b) 8)) (code c) in
      sextet v 18 :: sextet v 12 :: sextet v 6 :: sextet v 0 :: EncodeToString rest
  | [a; b] =>
      let v := N.lor (N.shiftl (code a) 16) (N.shiftl (code b) 8) in
      [sextet v 18; sextet v 12; sextet v 6; padChar]
  | [a] =>
      let v := N.shiftl (code a) 16 in
      [sextet v 18; sextet v 12; padChar; padChar]
  | [] => []
  end.

(** A character of base64 text: a letter of the alphabet or the padding. *)
Definition is_b64_char (c : ascii) : bool :=
  existsb (Ascii.eqb c) (padChar :: encodeStd).

(** ** [sanitizeFileName]

    [isWindows] is the value of [osutils.IsWindows()]. *)
Definition sanitizeFileName (isWindows : bool) (fileName : text) : text :=
  let fileName := ReplaceAll fileName (str "http:") [] in
  let fileName := ReplaceAll fileName (str "https:") [] in
  let fileName := ReplaceAll fileName (str "/") (str "_") in
  let fileName := ReplaceAll fileName (str "\") (str "_") in
  let fileName := ReplaceAll fileName (str "-") (str "_") in
  let fileName := ReplaceAll fileName (str ".") (str "_") in
  let fileName :=
    if isWindows then ReplaceAll fileName (str ":") (str "_") else fileName in
  let fileName := TrimPrefix fileName (str "__") in
  fileName.

(** ** Errors

    A Go [error] value is [Some e]; [nil] is [None].  [withMessage] is the
    annotation [errors.Wrap] of [github.com/pkg/errors] puts around its
    cause. *)
Inductive error : Type :=
| errorString (msg : text)
| withMessage (msg : text) (cause : error).

(** The method [Error()]. *)
Fixpoint errorText (e : error) : text :=
  match e with
  | errorString msg => msg
  | withMessage msg cause => msg ++ str ": " ++ errorText cause
  end.

(** [errors.Wrap]: "If err is nil, Wrap returns nil." *)
Definition Wrap (err : option error) (message : text) : option error :=
  match err with
  | Some e => Some (withMessage message e)
  | None => None
  end.

Fixpoint rootCause (e : error) : error :=
  match e with
  | errorString _ => e
  | withMessage _ cause => rootCause cause
  end.

(** Modelled from the spec: [utils.UnwrapError], whose package is not among
    the sources at hand.  The spec has it take "a possibly-wrapped error
    down to its root cause"; a nil error stays nil. *)
Definition UnwrapError (err : option error) : option error :=
  match err with
  | Some e => Some (rootCause e)
  | None => None
  end.

(** ** Data model *)

(** Values whose structure is declared in other packages ([model.Info],
    [server.Interaction], the [interface{}] values of the metadata map) are
    carried by the writer and never inspected; they are uninterpreted
    tokens. *)
Inductive opaque : Type := Token (n : nat).

(** [time.Time], as an instant on the clock. *)
Definition Time : Type := Z.

(** An open [io.WriteCloser]. *)
Inductive Sink : Type := FileHandle (id : nat).

Module AstraMeta.
Record t : Type := mk {
  Event : text;
  AuditId : text;
  JobId : text;
  ScanId : text;
  WebhookToken : text;
  Hostname : text
}.
Definition withEvent (ev : text) (m : t) : t :=
  mk ev (AuditId m) (JobId m) (ScanId m) (WebhookToken m) (Hostname m).
End AstraMeta.
Abbreviation AstraMeta := AstraMeta.t.

Module AstraAlertRequest.
Record t : Type := mk {
  Meta : AstraMeta;
  Context : text
}.
End AstraAlertRequest.
Abbreviation AstraAlertRequest := AstraAlertRequest.t.

Module ResultEvent.
Record t : Type := mk {
  Template : text;
  TemplateURL : text;
  TemplateID : text;
  TemplatePath : text;
  Info : opaque;
  MatcherName : text;
  ExtractorName : text;
  Type_ : text;
  Host : text;
  Path : text;
  Matched : text;
  ExtractedResults : list text;
  Request : text;
  Response : text;
  Metadata : gmap text opaque;
  IP : text;
  Timestamp : Time;
  Interaction : option opaque;
  CURLCommand : text;
  MatcherStatus : bool;
  Lines : list Z;
  FileToIndexPosition : gmap text Z
}.

Definition withTemplate (template url : text) (e : t) : t :=
  mk template url (TemplateID e) (TemplatePath e) (Info e) (MatcherName e)
     (ExtractorName e) (Type_ e) (Host e) (Path e) (Matched e)
     (ExtractedResults e) (Request e) (Response e) (Metadata e) (IP e)
     (Timestamp e) (Interaction e) (CURLCommand e) (MatcherStatus e)
     (Lines e) (FileToIndexPosition e).

Definition withTimestamp (ts : Time) (e : t) : t :=
  mk (Template e) (TemplateURL e) (TemplateID e) (TemplatePath e) (Info e)
     (MatcherName e) (ExtractorName e) (Type_ e) (Host e) (Path e) (Matched e)
     (ExtractedResults e) (Request e) (Response e) (Metadata e) (IP e)
     ts (Interaction e) (CURLCommand e) (MatcherStatus e)
     (Lines e) (FileToIndexPosition e).

Definition withRequest (req : text) (e : t) : t :=
  mk (Template e) (TemplateURL e) (TemplateID e) (TemplatePath e) (Info e)
     (MatcherName e) (ExtractorName e) (Type_ e) (Host e) (Path e) (Matched e)
     (ExtractedResults e) req (Response e) (Metadata e) (IP e)
     (Timestamp e) (Interaction e) (CURLCommand e) (MatcherStatus e)
     (Lines e) (FileToIndexPosition e).

Definition withResponse (resp : text) (e : t) : t :=
  mk (Template e) (TemplateURL e) (TemplateID e) (TemplatePath e) (Info e)
     (MatcherName e) (ExtractorName e) (Type_ e) (Host e) (Path e) (Matched e)
     (ExtractedResults e) (Request e) resp (Metadata e) (IP e)
     (Timestamp e) (Interaction e) (CURLCommand e) (MatcherStatus e)
     (Lines e) (FileToIndexPosition e).
End ResultEvent.
Abbreviation ResultEvent := ResultEvent.t.

(** [JSONLogRequest] is a trace/error log request written to file. *)
Module JSONLogRequest.
Record t : Type := mk {
  Template : text;
  Input : text;
  Error : text;
  Type_ : text
}.
End JSONLogRequest.
Abbreviation JSONLogRequest := JSONLogRequest.t.

(** The fields of [types.Options] the constructor reads. *)
Module Options.
Record t : Type := mk {
  Resume : text;
  NoColor : bool;
  Output : text;
  TraceLogFile : text;
  ErrorLogFile : text;
  StoreResponse : bool;
  StoreResponseDir : text;
  JSONL : bool;
  JSONRequests : bool;
  NoMeta : bool;
  MatcherStatus : bool;
  Timestamp : bool
}.
End Options.
Abbreviation Options := Options.t.

(** [StandardWriter].  The colorizer is the flag it was built from; the
    [severityColors] function is derived from it and not kept; the state of
    [mutex] shows as lock and unlock effects. *)
Module StandardWriter.
Record t : Type := mk {
  json : bool;
  jsonReqResp : bool;
  timestamp : bool;
  noMetadata : bool;
  matcherStatus : bool;
  AstraMeta : AstraMeta.t;
  AstraWebhook : text;
  AstraApiServiceName : text;
  aurora : bool;
  outputFile : option Sink;
  traceFile : option Sink;
  errorFile : option Sink;
  storeResponse : bool;
  storeResponseDir : text
}.

Definition withAstraMeta (m : AstraMeta.t) (w : t) : t :=
  mk (json w) (jsonReqResp w) (timestamp w) (noMetadata w) (matcherStatus w)
     m (AstraWebhook w) (AstraApiServiceName w) (aurora w) (outputFile w)
     (traceFile w) (errorFile w) (storeResponse w) (storeResponseDir w).
End StandardWriter.
Abbreviation StandardWriter := StandardWriter.t.

(** ** Effects and results *)

Module HttpRequest.
Record t : Type := mk {
  Method : text;
  URL : text;
  ContentType : text;
  Body : text
}.
End HttpRequest.
Abbreviation HttpRequest := HttpRequest.t.

(** [*http.Response]; only [Status] is read. *)
Module HttpResponse.
Record t : Type := mk { Status : text }.
End HttpResponse.
Abbreviation HttpResponse := HttpResponse.t.

Inductive effect : Type :=
| Log (msg : text)
| Send (req : HttpRequest)
| SinkWrite (f : Sink) (data : text)
| Lock
| Unlock.

(** How a call ends: it returns, it panics, or the process exits. *)
Inductive result (A : Type) : Type :=
| Returns (a : A)
| Panics (msg : text)
| Exits (status : Z).
Arguments Returns {A} a.
Arguments Panics {A} msg.
Arguments Exits {A} status.

Definition nilDereference : text :=
  str "runtime error: invalid memory address or nil pointer dereference".

(** ** Collaborators

    What the file calls but does not define: the renderers and
    [newFileOutputWriter] (other files of the package), [utils], the JSON
    encoders, [net/http], [os] and [fileutil], the open sinks, and the order
    in which [range] visits a map.  The renderers receive the event by
    pointer, so they return it as well. *)
Class Env : Type := {
  TemplatePathURL : text -> text * text;
  rangeHeaders : gmap text text -> list (text * text);
  formatJSON : StandardWriter -> ResultEvent -> ResultEvent * (text * option error);
  formatScreen : StandardWriter -> ResultEvent -> ResultEvent * text;
  marshalStatus : gmap text text -> text;
  marshalStateChange : text -> text;
  marshalAlert : AstraAlertRequest -> text;
  marshalLogRequest : JSONLogRequest -> text * option error;
  parseURL : text -> bool;
  transport : HttpRequest -> option HttpResponse * option error;
  sinkWrite : Sink -> text -> option error;
  newFileOutputWriter : text -> bool -> Sink + error;
  FolderExists : text -> bool;
  CreateFolder : text -> option error;
  LookupEnv : text -> option text
}.

Definition quoted (s : text) : text :=
  ascii_of_N 34 :: s ++ [ascii_of_N 34].

Definition isEmpty (s : text) : bool :=
  match s with
  | [] => true
  | _ :: _ => false
  end.

Definition isNil {A : Type} (o : option A) : bool :=
  match o with
  | None => true
  | Some _ => false
  end.

(** [decolorizerRegex]: ESC, an opening bracket, [[0-9;]*] and a letter. *)
Definition is_sgr_param (c : ascii) : bool := is_digit c || (code c =? 59)%N.
Definition is_letter (c : ascii) : bool := is_lower c || is_upper c.

Definition decolorizerRegex : regex :=
  Seq (Lit (ascii_of_N 27))
   (Seq (Lit "[") (Seq (Star is_sgr_param) (Class is_letter))).

Definition decolorize (data : text) : text := dropAll decolorizerRegex 0 None data.

Section Writer.
Context {E : Env}.

(** *** [sendStatusChangeRequest] *)

Definition statusRequest (action : text) : gmap text text :=
  if decide (action = str "RUNNING")
  then <[str "pid" := str "15"]> {[ str "status" := action ]}
  else {[ str "status" := action ]}.

(** [http.NewRequest]: nil when the URL does not parse. *)
Definition NewRequest (method url body : text) : option HttpRequest :=
  if parseURL url then Some (HttpRequest.mk method url [] body) else None.

Definition setContentType (ct : text) (req : HttpRequest) : HttpRequest :=
  HttpRequest.mk (HttpRequest.Method req) (HttpRequest.URL req) ct
                 (HttpRequest.Body req).

(** The JSON object with the single member [reason]. *)
Definition reasonContext (reason : text) : text :=
  str "{" ++ quoted (str "reason") ++ str ":" ++ quoted reason ++ str "}".

Definition lifecycleEvent (action : text) : text * text :=
  if decide (action = str "RUNNING")
  then (str "scan.started", reasonContext (str "Scan Started successfully"))
  else (str "scan.complete", reasonContext (str "Scan Completed successfully")).

Definition sendStatusChangeRequest (w : StandardWriter) (action : text)
  : StandardWriter * list effect * result unit :=
  let log0 := Log (str "Sending status change request with action -> " ++ action ++ [LF]) in
  let tempRequestBody := marshalStatus (statusRequest action) in
  let postBody := marshalStateChange tempRequestBody in
  match NewRequest (str "PATCH")
          (str "http://" ++ StandardWriter.AstraApiServiceName w
             ++ str "/api/nuclei/" ++ AstraMeta.ScanId (StandardWriter.AstraMeta w))
          postBody with
  | None => (w, [log0], Panics nilDereference)
  | Some req0 =>
      let req := setContentType (str "application/json") req0 in
      match fst (transport req) with
      | None => (w, [log0; Send req], Panics nilDereference)
      | Some resp =>
          let log1 := Log (str "Status code received for `status change api` -> "
                             ++ HttpResponse.Status resp ++ [LF]) in
          let log2 := Log (str "Triggering event on webhook url") in
          let '(ev, context) := lifecycleEvent action in
          let w' := StandardWriter.withAstraMeta
                      (AstraMeta.withEvent ev (StandardWriter.AstraMeta w)) w in
          let tempAstraRequest :=
            AstraAlertRequest.mk (StandardWriter.AstraMeta w') context in
          let post := HttpRequest.mk (str "POST") (StandardWriter.AstraWebhook w')
                        (str "application/json") (marshalAlert tempAstraRequest) in
          match fst (transport post) with
          | None => (w', [log0; Send req; log1; log2; Send post], Panics nilDereference)
          | Some resp_ =>
              (w', [log0; Send req; log1; log2; Send post;
                    Log (str "Request status received -> "
                           ++ HttpResponse.Status resp_ ++ str " for alert" ++ [LF])],
               Returns tt)
          end
      end
  end.

(** *** [Write] *)

(** The canonical text that replaces the captured response. *)
Definition newResponseString (httpVersion : text) (statusCode : Z)
    (headers : list (text * text)) : text :=
  foldl (fun acc nv => acc ++ (fst nv ++ str ": " ++ snd nv ++ [LF]))
        (str "HTTP version: " ++ httpVersion ++ [LF]
           ++ str "Status code: " ++ Itoa statusCode ++ [LF])
        headers.

(** From the entry of [Write] to the two base64 assignments. *)
Definition prepare (now : Time) (event : ResultEvent) : ResultEvent :=
  let event :=
    if isEmpty (ResultEvent.TemplatePath event) then event
    else
      let '(template, url) := TemplatePathURL (ResultEvent.TemplatePath event) in
      ResultEvent.withTemplate template url event in
  let event := ResultEvent.withTimestamp now event in
  let '(httpVersion, statusCode, headers) :=
    extractResponseData (ResultEvent.Response event) in
  let event :=
    ResultEvent.withResponse
      (newResponseString httpVersion statusCode (rangeHeaders headers)) event in
  let event :=
    ResultEvent.withRequest (EncodeToString (ResultEvent.Request event)) event in
  ResultEvent.withResponse (EncodeToString (ResultEvent.Response event)) event.

(** The choice of renderer. *)
Definition render (w : StandardWriter) (event : ResultEvent)
  : ResultEvent * (text * option error) :=
  if StandardWriter.json w then formatJSON w event
  else let '(event', data) := formatScreen w event in (event', (data, None)).

(** The writer once [w.AstraMeta.Event] is set to "alert". *)
Definition asAlert (w : StandardWriter) : StandardWriter :=
  StandardWriter.withAstraMeta
    (AstraMeta.withEvent (str "alert") (StandardWriter.AstraMeta w)) w.

(** The webhook request carrying the rendered finding. *)
Definition alertPost (w : StandardWriter) (data : text) : HttpRequest :=
  let tempRequest := AstraAlertRequest.mk (StandardWriter.AstraMeta w) data in
  HttpRequest.mk (str "POST") (StandardWriter.AstraWebhook w)
    (str "application/json") (marshalAlert tempRequest).

(** The bytes handed to the output file. *)
Definition persisted (w : StandardWriter) (data : text) : text :=
  if StandardWriter.json w then data else decolorize data.

(** The critical section: the alert, then the output file. *)
Definition deliver (w : StandardWriter) (event : ResultEvent) (data : text)
  : StandardWriter * list effect * result (option error) :=
  let log0 := Log (str "Raising alert for -> " ++ ResultEvent.TemplateURL event ++ [LF]) in
  let w := asAlert w in
  let post := alertPost w data in
  let '(resp, err) := transport post in
  match resp with
  | None => (w, [Lock; log0; Send post; Unlock], Panics nilDereference)
  | Some r =>
      let log1 := Log (str "Request status received -> "
                         ++ HttpResponse.Status r ++ str " for alert" ++ [LF]) in
      match StandardWriter.outputFile w with
      | Some f =>
          let data := persisted w data in
          match sinkWrite f data with
          | Some writeErr =>
              (w, [Lock; log0; Send post; log1; SinkWrite f data; Unlock],
               Returns (Wrap err (str "could not write to output")))
          | None =>
              (w, [Lock; log0; Send post; log1; SinkWrite f data; Unlock],
               Returns None)
          end
      | None => (w, [Lock; log0; Send post; log1; Unlock], Returns None)
      end
  end.

Definition Write (w : StandardWriter) (now : Time) (event : ResultEvent)
  : StandardWriter * ResultEvent * list effect * result (option error) :=
  let event := prepare now event in
  let '(event, (data, err)) := render w event in
  match err with
  | Some e => (w, event, [], Returns (Wrap (Some e) (str "could not format output")))
  | None =>
      if (length data =? 0)%nat then (w, event, [], Returns None)
      else
        let '(w', effects, r) := deliver w event data in
        (w', event, effects, r)
  end.

(** *** [Request] *)

Definition Request (w : StandardWriter) (templatePath input requestType : text)
    (requestErr : option error) : list effect :=
  if isNil (StandardWriter.traceFile w) && isNil (StandardWriter.errorFile w)
  then []
  else
    let request :=
      JSONLogRequest.mk templatePath input
        (match UnwrapError requestErr with
         | Some unwrappedErr => errorText unwrappedErr
         | None => str "none"
         end)
        requestType in
    let '(data, err) := marshalLogRequest request in
    match err with
    | Some _ => []
    | None =>
        (match StandardWriter.traceFile w with
         | Some f => [SinkWrite f data]
         | None => []
         end)
        ++
        (match requestErr, StandardWriter.errorFile w with
         | Some _, Some f => [SinkWrite f data]
         | _, _ => []
         end)
    end.

(** *** [NewStandardWriter] *)

(** One of the three "if the path is set, open it" blocks. *)
Definition openSink (path : text) (resume : bool) : option Sink + error :=
  if isEmpty path then inl None
  else
    match newFileOutputWriter path resume with
    | inl output => inl (Some output)
    | inr err => inr err
    end.

Definition NewStandardWriter (options : Options)
  : list effect * result (option StandardWriter * option error) :=
  let resumeBool := negb (isEmpty (Options.Resume options)) in
  let auroraColorizer := negb (Options.NoColor options) in
  match openSink (Options.Output options) resumeBool with
  | inr err => ([], Returns (None, Wrap (Some err) (str "could not create output file")))
  | inl outputFile =>
  match openSink (Options.TraceLogFile options) resumeBool with
  | inr err => ([], Returns (None, Wrap (Some err) (str "could not create output file")))
  | inl traceOutput =>
  match openSink (Options.ErrorLogFile options) resumeBool with
  | inr err => ([], Returns (None, Wrap (Some err) (str "could not create error file")))
  | inl errorOutput =>
  match (if Options.StoreResponse options
            && negb (FolderExists (Options.StoreResponseDir options))
         then CreateFolder (Options.StoreResponseDir options) else None) with
  | Some err =>
      ([Log (str "Could not create output directory '"
               ++ Options.StoreResponseDir options ++ str "': "
               ++ errorText err ++ [LF])],
       Exits 1)
  | None =>
  match LookupEnv (str "auditId") with
  | None => ([], Panics (str "Audit Id env not present"))
  | Some auditId =>
  match LookupEnv (str "jobId") with
  | None => ([], Panics (str "Job Id env not present"))
  | Some jobId =>
  match LookupEnv (str "scanId") with
  | None => ([], Panics (str "Scan Id env not present"))
  | Some scanId =>
  match LookupEnv (str "webhookToken") with
  | None => ([], Panics (str "Webhook token env not present"))
  | Some webhookToken =>
  match LookupEnv (str "webhookUrl") with
  | None => ([], Panics (str "Webhook url env not present"))
  | Some tempAstraWebhookUrl =>
  match LookupEnv (str "DAST_API_SVC_NAME") with
  | None => ([], Panics (str "Support server env not present"))
  | Some tempAstraApiServiceName =>
      let tempAstraMeta :=
        AstraMeta.mk (str "alert") auditId jobId scanId webhookToken (str "k8s") in
      let writer :=
        StandardWriter.mk (Options.JSONL options) (Options.JSONRequests options)
          (Options.Timestamp options) (Options.NoMeta options)
          (Options.MatcherStatus options) tempAstraMeta tempAstraWebhookUrl
          tempAstraApiServiceName auroraColorizer outputFile traceOutput
          errorOutput (Options.StoreResponse options)
          (Options.StoreResponseDir options) in
      let '(writer', effects, r) := sendStatusChangeRequest writer (str "RUNNING") in
      (Log (str "Changing scan state to running") :: effects,
       match r with
       | Returns _ => Returns (Some writer', None)
       | Panics msg => Panics msg
       | Exits status => Exits status
       end)
  end end end end end end end end end end.

End Writer.

(** ** Reading the outcome of a call *)

Definition writerAfter {A : Type} (o : StandardWriter * ResultEvent * list effect * A)
  : StandardWriter := fst (fst (fst o)).
Definition eventAfter {A : Type} (o : StandardWriter * ResultEvent * list effect * A)
  : ResultEvent := snd (fst (fst o)).
Definition effectsOf {A B : Type} (o : A * list effect * B) : list effect :=
  snd (fst o).
Definition resultOf {A B : Type} (o : A * B) : B := snd o.


(** The six environment variables the constructor looks up. *)
Definition requiredEnv : list text :=
  [str "auditId"; str "jobId"; str "scanId"; str "webhookToken";
   str "webhookUrl"; str "DAST_API_SVC_NAME"].

(** The three sink paths of the options. *)
Definition sinkPaths (options : Options) : list text :=
  [Options.Output options; Options.TraceLogFile options;
   Options.ErrorLogFile options].

(** Every configured sink path opens. *)
Definition sinksOpen {E : Env} (options : Options) : Prop :=
  forall path, In path (sinkPaths options) ->
    exists output, openSink path (negb (isEmpty (Options.Resume options))) = inl output.

(** The store-response directory is not needed, is there, or can be made. *)
Definition directoryReady {E : Env} (options : Options) : Prop :=
  Options.StoreResponse options = false
  \/ FolderExists (Options.StoreResponseDir options) = true
  \/ CreateFolder (Options.StoreResponseDir options) = None.

(** A renderer leaves alone the three fields [Write] has just set. *)
Definition keepsFields (e e' : ResultEvent) : Prop :=
  ResultEvent.Timestamp e' = ResultEvent.Timestamp e
  /\ ResultEvent.Request e' = ResultEvent.Request e
  /\ ResultEvent.Response e' = ResultEvent.Response e.

(** The event without its request and its response. *)
Definition withoutExchange (e : ResultEvent) : ResultEvent :=
  ResultEvent.withResponse [] (ResultEvent.withRequest [] e).

(** What the two renderers do to the event [Write] hands them by pointer.
    They are defined in other files of the package: the JSON renderer
    empties the request and the response unless [jsonReqResp], which
    [NewStandardWriter] sets from [Options.JSONRequests], is on; the screen
    renderer only reads the event. *)
Definition rendererEffects {E : Env} : Prop :=
  (forall w e,
      fst (formatJSON w e)
      = if StandardWriter.jsonReqResp w then e else withoutExchange e)
  /\ (forall w e, fst (formatScreen w e) = e).

(** One line of the canonical response text. *)
Definition headerLine (nv : text * text) : text :=
  fst nv ++ str ": " ++ snd nv ++ [LF].

Definition preamble (httpVersion : text) (statusCode : Z) : text :=
  str "HTTP version: " ++ httpVersion ++ [LF]
    ++ str "Status code: " ++ Itoa statusCode ++ [LF].

(** The three fields as the claims describe them, for an event that started
    as [original] and whose response was read as [httpVersion],
    [statusCode] and [headers]: the timestamp is the clock value, the
    request is the base64 text of the original request, the response is the
    base64 text of the preamble followed by one line per captured header,
    and both are base64 text. *)
Definition stampedAndEncoded (now : Time) (original : ResultEvent)
    (httpVersion : text) (statusCode : Z) (headers : gmap text text)
    (e : ResultEvent) : Prop :=
  ResultEvent.Timestamp e = now
  /\ ResultEvent.Request e = EncodeToString (ResultEvent.Request original)
  /\ (exists lines,
         lines ≡ₚ map_to_list headers
         /\ ResultEvent.Response e
            = EncodeToString
                (preamble httpVersion statusCode ++ concat (map headerLine lines)))
  /\ Forall (fun c => is_b64_char c = true) (ResultEvent.Request e)
  /\ Forall (fun c => is_b64_char c = true) (ResultEvent.Response e).

(** ** A status line, read off the words of the spec

    A direct scanner for the shape [HTTP/<v> <code> <reason>], written
    without the matcher: the prefix, digits, a dot, digits, white space,
    digits, white space.  It is compared with [statusPattern] below. *)

(** The rest of [s] after its longest run of characters of [p]. *)
Fixpoint skipWhile (p : ascii -> bool) (s : text) : text :=
  match s with
  | c :: t => if p c then skipWhile p t else s
  | [] => []
  end.

(** The rest of [s] after a non-empty longest run of characters of [p]. *)
Definition afterRun (p : ascii -> bool) (s : text) : option text :=
  match s with
  | c :: t => if p c then Some (skipWhile p t) else None
  | [] => None
  end.

Definition afterPrefix (prefix s : text) : option text :=
  if HasPrefix s prefix then Some (drop (length prefix) s) else None.

Definition afterChar (c : ascii) (s : text) : option text :=
  match s with
  | x :: t => if Ascii.eqb x c then Some t else None
  | [] => None
  end.

(** The steps are taken in turn, each on what the previous one left. *)
Definition scan (steps : list (text -> option text)) (s : text) : option text :=
  foldl (fun o step => match o with Some rest => step rest | None => None end)
        (Some s) steps.

Definition statusLineSteps : list (text -> option text) :=
  [afterPrefix (str "HTTP/"); afterRun is_digit; afterChar ".";
   afterRun is_digit; afterRun is_space; afterRun is_digit; afterRun is_space].

Definition hasStatusLine (raw : text) : bool :=
  match scan statusLineSteps raw with
  | Some _ => true
  | None => false
  end.

(** The previous character once [xs] has been read. *)
Definition prevAfter (prev : option ascii) (xs : text) : option ascii :=
  match last xs with
  | Some c => Some c
  | None => prev
  end.

(** ** A well-formed response, in the words of the claims

    The text the spec describes: a status line [HTTP/<v> <code> <reason>],
    then header lines [name: value], each ended by CR LF. *)

Definition statusText (major minor status reason : text) : text :=
  str "HTTP/" ++ major ++ str "." ++ minor ++ str " " ++ status ++ str " "
    ++ reason ++ CRLF.

Definition headerText (nv : text * text) : text :=
  fst nv ++ str ": " ++ snd nv ++ CRLF.

(** A non-empty text of characters of [p]. *)
Definition nonEmptyAll (p : ascii -> bool) (s : text) : bool :=
  negb (isEmpty s) && forallb p s.

(** A header value that stays on its line, is not empty and does not begin
    with white space. *)
Definition validValue (x : text) : bool :=
  match x with
  | c :: _ => negb (is_space c) && forallb not_eol x
  | [] => false
  end.

Definition validHeader (nv : text * text) : bool :=
  nonEmptyAll is_name_char (fst nv) && validValue (snd nv).

(** The text is over or goes on with a character outside [p]. *)
Definition stops (p : ascii -> bool) (s : text) : Prop :=
  match s with
  | c :: _ => p c = false
  | [] => True
  end.

Definition stopsAt (p : ascii -> bool) (s : text) : bool :=
  match s with
  | c :: _ => negb (p c)
  | [] => true
  end.

(** The name and the value of a header match. *)
Definition pairOf (m : list text) : text * text := (nth 1 m [], nth 2 m []).

(** The map built from header lines in order: a later line overwrites an
    earlier one of the same lower-cased name. *)
Definition headerMap (hdrs : list (text * text)) : gmap text text :=
  foldl (fun h nv => <[ToLower (fst nv) := snd nv]> h) ∅ hdrs.

(** A computation succeeded with a result in [P]. *)
Definition holds {A : Type} (P : A -> Prop) (o : option A) : Prop :=
  match o with
  | Some a => P a
  | None => False
  end.

(** ** Words of the claims about [sanitizeFileName] *)

(** [old] occurs somewhere in [s]. *)
Fixpoint occurs (old s : text) : bool :=
  HasPrefix s old
  || match s with
     | [] => false
     | _ :: t => occurs old t
     end.

(** The replacement steps of [sanitizeFileName], before the prefix is
    trimmed. *)
Definition replaced (isWindows : bool) (fileName : text) : text :=
  let fileName := ReplaceAll fileName (str "http:") [] in
  let fileName := ReplaceAll fileName (str "https:") [] in
  let fileName := ReplaceAll fileName (str "/") (str "_") in
  let fileName := ReplaceAll fileName (str "\") (str "_") in
  let fileName := ReplaceAll fileName (str "-") (str "_") in
  let fileName := ReplaceAll fileName (str ".") (str "_") in
  if isWindows then ReplaceAll fileName (str ":") (str "_") else fileName.

(** ** Concrete collaborators

    A family of environments on which the functions can be run: the network,
    the disk and the process environment are arguments; the screen renderer
    prints the template id, the JSON renderer an object holding it. *)
Module Scenario.

Definition okResponse : HttpResponse := HttpResponse.mk (str "200 OK").
Definition connectionRefused : error := errorString (str "connection refused").
Definition diskFull : error := errorString (str "no space left on device").
Definition permissionDenied : error := errorString (str "permission denied").

Definition networkUp (_ : HttpRequest) : option HttpResponse * option error :=
  (Some okResponse, None).
Definition networkDown (_ : HttpRequest) : option HttpResponse * option error :=
  (None, Some connectionRefused).

Definition diskOk (_ : Sink) (_ : text) : option error := None.
Definition diskBroken (_ : Sink) (_ : text) : option error := Some diskFull.

Definition opens (path : text) (_ : bool) : Sink + error :=
  inl (FileHandle (length path)).

Definition fullEnviron (name : text) : option text := Some (str "x").

Definition jsonOf (e : ResultEvent) : text :=
  str "{" ++ quoted (str "template-id") ++ str ":"
    ++ quoted (ResultEvent.TemplateID e) ++ str "}".

Definition env (net : HttpRequest -> option HttpResponse * option error)
    (disk : Sink -> text -> option error)
    (open : text -> bool -> Sink + error)
    (mkdir : text -> option error)
    (environ : text -> option text) : Env :=
  {| TemplatePathURL := fun path => (path, []);
     rangeHeaders := map_to_list;
     formatJSON := fun _ e => (e, (jsonOf e, None));
     formatScreen := fun _ e => (e, ResultEvent.TemplateID e);
     marshalStatus := fun m => concat (map (fun kv => fst kv ++ str "=" ++ snd kv) (map_to_list m));
     marshalStateChange := fun body => body;
     marshalAlert := fun req => AstraAlertRequest.Context req;
     marshalLogRequest := fun r =>
       (JSONLogRequest.Template r ++ str " " ++ JSONLogRequest.Error r, None);
     parseURL := fun _ => true;
     transport := net;
     sinkWrite := disk;
     newFileOutputWriter := open;
     FolderExists := fun _ => false;
     CreateFolder := mkdir;
     LookupEnv := environ |}.

Definition meta : AstraMeta :=
  AstraMeta.mk (str "alert") (str "a1") (str "j1") (str "s1") (str "tok") (str "k8s").

Definition writer (json : bool) (out trace err : option Sink) : StandardWriter :=
  StandardWriter.mk json false false false false meta (str "http://hook")
    (str "svc") true out trace err false [].

Definition finding (id request response : text) : ResultEvent :=
  ResultEvent.mk [] [] id [] (Token 0) [] [] (str "http") [] [] [] []
    request response ∅ [] 0 None [] true [] ∅.

Definition options (out trace err : text) (store : bool) : Options :=
  Options.mk [] false out trace err store (str "/tmp/responses")
    true false false false false.

End Scenario.

(** * The rest of the file

    [Close], [WriteFailure], [WriteStoreDebugData] and the methods of
    [InternalWrappedEvent], with what they need beyond [Env]. *)

(** A value of an [InternalEvent], which is a [map[string]interface{}]: a
    [model.Info], a string, or a value of another type, kept with the name
    of that type.  A missing key reads as nil. *)
Inductive value : Type :=
| InfoValue (info : opaque)
| OtherValue (dynamicType : text) (v : opaque)
| StringValue (s : text).

(** The name of the dynamic type of a value, as the run time prints it. *)
Definition typeOf (v : value) : text :=
  match v with
  | InfoValue _ => str "model.Info"
  | OtherValue dynamicType _ => dynamicType
  | StringValue _ => str "string"
  end.

Abbreviation InternalEvent := (gmap text value).

(** What the three functions call outside the file: [osutils.IsWindows],
    [types.ToString], the zero value of [model.Info], [filepath.Join] and
    [os.OpenFile] in append mode. *)
Class Host : Type := {
  IsWindows : bool;
  ToString : option value -> text;
  zeroInfo : opaque;
  Join : text -> text -> text;
  OpenFile : text -> Sink + error
}.

(** What these functions do beyond the effects of [Write]: closing a sink,
    and the file system and standard output of [WriteStoreDebugData]. *)
Inductive step : Type :=
| Core (e : effect)
| CloseSink (f : Sink)
| MakeFolder (path : text)
| OpenAppend (path : text)
| WriteString (f : Sink) (data : text)
| Print (msg : text).

(** The text of the run-time error of a failed assertion to [model.Info]
    on a value of the given dynamic type. *)
Definition typeAssertionFailed (dynamicType : text) : text :=
  str "interface conversion: interface {} is " ++ dynamicType
    ++ str ", not model.Info".

(** The sinks of a writer that are open, in the order [Close] visits them. *)
Definition openSinks (w : StandardWriter) : list Sink :=
  omap id [StandardWriter.outputFile w; StandardWriter.traceFile w;
           StandardWriter.errorFile w].

Section Lifecycle.
Context {E : Env} {H : Host}.

(** *** [Close] *)
Definition Close (w : StandardWriter) : StandardWriter * list step * result unit :=
  let log0 := Log (str "Execution completed successfully, triggering complete event") in
  let '(w', effects, r) := sendStatusChangeRequest w (str "COMPLETE") in
  match r with
  | Returns _ =>
      (w', map Core (log0 :: effects) ++ map CloseSink (openSinks w'), Returns tt)
  | Panics msg => (w', map Core (log0 :: effects), Panics msg)
  | Exits status => (w', map Core (log0 :: effects), Exits status)
  end.

(** *** [WriteFailure] *)

(** The event [WriteFailure] builds; the fields it does not name have
    their zero value. *)
Definition failureEvent (event : InternalEvent) (templateInfo : opaque)
    (now : Time) : ResultEvent :=
  let '(templatePath, templateURL) :=
    TemplatePathURL (ToString (event !! str "template-path")) in
  ResultEvent.mk templatePath templateURL
    (ToString (event !! str "template-id"))
    (ToString (event !! str "template-path"))
    templateInfo [] []
    (ToString (event !! str "type"))
    (ToString (event !! str "host"))
    [] [] [] [] [] ∅ [] now None [] false [] ∅.

(** [now0] is the clock when the event is built, [now] when [Write] runs. *)
Definition WriteFailure (w : StandardWriter) (now0 now : Time) (event : InternalEvent)
  : StandardWriter * option ResultEvent * list effect * result (option error) :=
  if negb (StandardWriter.matcherStatus w) then (w, None, [], Returns None)
  else
    let written templateInfo :=
      let '(w', e', effects, r) := Write w now (failureEvent event templateInfo now0) in
      (w', Some e', effects, r) in
    match event !! str "template-info" with
    | None => written zeroInfo
    | Some (InfoValue info) => written info
    | Some v => (w, None, [], Panics (typeAssertionFailed (typeOf v)))
    end.

(** *** [WriteStoreDebugData] *)
Definition WriteStoreDebugData (w : StandardWriter)
    (host templateID eventType data : text) : list step :=
  if StandardWriter.storeResponse w then
    let filename := sanitizeFileName IsWindows (host ++ str "_" ++ templateID) in
    let subFolder :=
      Join (StandardWriter.storeResponseDir w) (sanitizeFileName IsWindows eventType) in
    let mkdir :=
      if FolderExists subFolder then [] else [MakeFolder subFolder] in
    let filename := Join subFolder (filename ++ str ".txt") in
    match OpenFile filename with
    | inr err => mkdir ++ [OpenAppend filename; Print (errorText err)]
    | inl f =>
        mkdir ++ [OpenAppend filename; WriteString f (data ++ [LF]); CloseSink f]
    end
  else [].

End Lifecycle.

(** *** [InternalWrappedEvent]

    The embedded [sync.RWMutex] shows as the lock operations of a call. *)
Module InternalWrappedEvent.
Record t : Type := mk {
  InternalEvent : gmap text value;
  Results : list ResultEvent;
  OperatorsResult : option opaque;
  UsesInteractsh : bool
}.
End InternalWrappedEvent.
Abbreviation InternalWrappedEvent := InternalWrappedEvent.t.

Inductive rwlock : Type := RLock | RUnlock | WLock | WUnlock.

Definition HasOperatorResult (iwe : InternalWrappedEvent) : list rwlock * bool :=
  ([RLock; RUnlock], negb (isNil (InternalWrappedEvent.OperatorsResult iwe))).

Definition HasResults (iwe : InternalWrappedEvent) : list rwlock * bool :=
  ([RLock; RUnlock], (0 <? length (InternalWrappedEvent.Results iwe))%nat).

Definition SetOperatorResult (iwe : InternalWrappedEvent)
    (operatorResult : option opaque) : list rwlock * InternalWrappedEvent :=
  ([WLock; WUnlock],
   InternalWrappedEvent.mk (InternalWrappedEvent.InternalEvent iwe)
     (InternalWrappedEvent.Results iwe) operatorResult
     (InternalWrappedEvent.UsesInteractsh iwe)).

(** ** Words of the further properties *)

(** A lower-case character of a header name: [[0-9a-z_-]]. *)
Definition is_key_char (c : ascii) : bool :=
  is_digit c || is_lower c || (code c =? 95)%N || (code c =? 45)%N.

Definition ESC : ascii := ascii_of_N 27.

(** The texts [sanitizeFileName] replaces or removes. *)
Definition sanitized (isWindows : bool) : list text :=
  [str "http:"; str "https:"; str "/"; str "\"; str "-"; str "."]
    ++ (if isWindows then [str ":"] else []).

(** None of [olds] occurs in [s]. *)
Definition free (olds : list text) (s : text) : bool :=
  forallb (fun old => negb (occurs old s)) olds.

Definition isSend (e : effect) : bool :=
  match e with
  | Send _ => true
  | _ => false
  end.

(** The writer with another [AstraMeta.Event] and nothing else changed. *)
Definition withEvent (ev : text) (w : StandardWriter) : StandardWriter :=
  StandardWriter.withAstraMeta
    (AstraMeta.withEvent ev (StandardWriter.AstraMeta w)) w.

(** The status URL of a writer. *)
Definition statusURL (w : StandardWriter) : text :=
  str "http://" ++ StandardWriter.AstraApiServiceName w
    ++ str "/api/nuclei/" ++ AstraMeta.ScanId (StandardWriter.AstraMeta w).

(** The two requests of [sendStatusChangeRequest] for a writer and an
    action, as the function builds them. *)
Definition statusPatch {E : Env} (w : StandardWriter) (action : text) : HttpRequest :=
  HttpRequest.mk (str "PATCH") (statusURL w) (str "application/json")
    (marshalStateChange (marshalStatus (statusRequest action))).

Definition lifecyclePost {E : Env} (w : StandardWriter) (action : text)
  : HttpRequest :=
  HttpRequest.mk (str "POST") (StandardWriter.AstraWebhook w)
    (str "application/json")
    (marshalAlert
       (AstraAlertRequest.mk
          (AstraMeta.withEvent (fst (lifecycleEvent action))
             (StandardWriter.AstraMeta w))
          (snd (lifecycleEvent action)))).

(** ** More concrete collaborators *)
Module Trial.

Definition host : Host :=
  {| IsWindows := false;
     ToString := fun o => match o with Some (StringValue s) => s | _ => [] end;
     zeroInfo := Token 0;
     Join := fun dir name => dir ++ str "/" ++ name;
     OpenFile := fun path => inl (FileHandle (length path)) |}.

Definition readOnlyHost : Host :=
  {| IsWindows := false;
     ToString := fun o => match o with Some (StringValue s) => s | _ => [] end;
     zeroInfo := Token 0;
     Join := fun dir name => dir ++ str "/" ++ name;
     OpenFile := fun _ => inr Scenario.permissionDenied |}.

(** An environment that differs from [E] in whether URLs parse. *)
Definition parsing (ok : bool) (E : Env) : Env :=
  {| TemplatePathURL := @TemplatePathURL E;
     rangeHeaders := @rangeHeaders E;
     formatJSON := @formatJSON E;
     formatScreen := @formatScreen E;
     marshalStatus := @marshalStatus E;
     marshalStateChange := @marshalStateChange E;
     marshalAlert := @marshalAlert E;
     marshalLogRequest := @marshalLogRequest E;
     parseURL := fun _ => ok;
     transport := @transport E;
     sinkWrite := @sinkWrite E;
     newFileOutputWriter := @newFileOutputWriter E;
     FolderExists := @FolderExists E;
     CreateFolder := @CreateFolder E;
     LookupEnv := @LookupEnv E |}.

(** An environment that differs from [E] in its JSON renderer, which
    empties the request and the response unless [jsonReqResp] is on. *)
Definition terse (E : Env) : Env :=
  {| TemplatePathURL := @TemplatePathURL E;
     rangeHeaders := @rangeHeaders E;
     formatJSON := fun w e =>
       let e' := if StandardWriter.jsonReqResp w then e else withoutExchange e in
       (e', snd (@formatJSON E w e'));
     formatScreen := @formatScreen E;
     marshalStatus := @marshalStatus E;
     marshalStateChange := @marshalStateChange E;
     marshalAlert := @marshalAlert E;
     marshalLogRequest := @marshalLogRequest E;
     parseURL := @parseURL E;
     transport := @transport E;
     sinkWrite := @sinkWrite E;
     newFileOutputWriter := @newFileOutputWriter E;
     FolderExists := @FolderExists E;
     CreateFolder := @CreateFolder E;
     LookupEnv := @LookupEnv E |}.

Definition online : Env :=
  Scenario.env Scenario.networkUp Scenario.diskOk Scenario.opens
    (fun _ => None) Scenario.fullEnviron.

Definition offline : Env :=
  Scenario.env Scenario.networkDown Scenario.diskOk Scenario.opens
    (fun _ => None) Scenario.fullEnviron.

(** A writer that reports failures and stores responses. *)
Definition reporter (out trace err : option Sink) : StandardWriter :=
  StandardWriter.mk false false false false true Scenario.meta
    (str "http://hook") (str "svc") true out trace err true (str "/tmp/responses").

Definition failed (info : option value) : InternalEvent :=
  let base : InternalEvent :=
    <[str "template-id" := StringValue (str "t1")]>
      (<[str "host" := StringValue (str "example.com")]> ∅) in
  match info with
  | Some v => <[str "template-info" := v]> base
  | None => base
  end.

End Trial.

(** * Properties *)

(** ** The critical section of [Write] *)

Section DeliverFacts.
Context {E : Env}.

Lemma Write_rendered (w : StandardWriter) (now : Time) (event event' : ResultEvent)
    (data : text) :
  render w (prepare now event) = (event', (data, None)) ->
  data <> [] ->
  Write w now event =
    (let '(w', effects, r) := deliver w event' data in (w', event', effects, r)).
Proof.
  intros Hr Hd. unfold Write. rewrite Hr.
  destruct data as [|c data]; [contradiction|reflexivity].
Qed.

(** The critical section ends in one of three ways. *)
Lemma deliver_cases (w : StandardWriter) (event : ResultEvent) (data : text) :
  let post := alertPost (asAlert w) data in
  exists log0,
    (fst (transport post) = None
     /\ deliver w event data
        = (asAlert w, [Lock; Log log0; Send post; Unlock], Panics nilDereference))
    \/ (exists resp log1,
          fst (transport post) = Some resp
          /\ StandardWriter.outputFile w = None
          /\ deliver w event data
             = (asAlert w, [Lock; Log log0; Send post; Log log1; Unlock],
                Returns None))
    \/ (exists resp log1 f r,
          fst (transport post) = Some resp
          /\ StandardWriter.outputFile w = Some f
          /\ deliver w event data
             = (asAlert w,
                [Lock; Log log0; Send post; Log log1;
                 SinkWrite f (persisted w data); Unlock],
                Returns r)).
Proof.
  intros post. unfold deliver. fold post. eexists.
  destruct (transport post) as [[resp|] err]; cbn [fst].
  - right.
    replace (StandardWriter.outputFile (asAlert w))
      with (StandardWriter.outputFile w) by reflexivity.
    destruct (StandardWriter.outputFile w) as [f|].
    + right. replace (persisted (asAlert w) data) with (persisted w data)
        by reflexivity.
      destruct (sinkWrite f (persisted w data)); eexists _, _, _, _; eauto.
    + left. eexists _, _. eauto.
  - left. eauto.
Qed.

(** [Write] does nothing outside the critical section. *)
Lemma Write_cases (w : StandardWriter) (now : Time) (event : ResultEvent) :
  (exists event' r, Write w now event = (w, event', [], Returns r))
  \/ (exists event' data,
        render w (prepare now event) = (event', (data, None))
        /\ data <> []
        /\ Write w now event
           = (let '(w', effects, r) := deliver w event' data in
              (w', event', effects, r))).
Proof.
  unfold Write. destruct (render w (prepare now event)) as [event' [data [err|]]].
  - left. eauto.
  - destruct data as [|c data]; cbn [length Nat.eqb].
    + left. eauto.
    + right. exists event', (c :: data). repeat split. discriminate.
Qed.

(** C1.  When the append to the primary output file fails, [Write] returns
    [errors.Wrap] of the error of the webhook POST, not of the failed
    write: with a POST that succeeded the returned error is nil.  The alert
    is in the trace before the write, and only the unlock follows it. *)
Theorem Write_append_failure_returns_post_error
    (w : StandardWriter) (now : Time) (event event' : ResultEvent)
    (data : text) (resp : HttpResponse) (postErr : option error)
    (f : Sink) (writeErr : error) :
  render w (prepare now event) = (event', (data, None)) ->
  data <> [] ->
  transport (alertPost (asAlert w) data) = (Some resp, postErr) ->
  StandardWriter.outputFile w = Some f ->
  sinkWrite f (persisted w data) = Some writeErr ->
  resultOf (Write w now event)
    = Returns (Wrap postErr (str "could not write to output"))
  /\ (postErr = None -> resultOf (Write w now event) = Returns None)
  /\ exists log0 log1,
       effectsOf (Write w now event)
       = [Lock; Log log0; Send (alertPost (asAlert w) data); Log log1;
          SinkWrite f (persisted w data); Unlock].
Proof.
  intros Hr Hd Ht Hf Hw.
  rewrite (Write_rendered _ _ _ _ _ Hr Hd).
  unfold deliver. rewrite Ht. cbn [StandardWriter.outputFile asAlert StandardWriter.withAstraMeta].
  rewrite Hf.
  replace (persisted (asAlert w) data) with (persisted w data) by reflexivity.
  rewrite Hw. cbn.
  split; [reflexivity|]. split.
  - intros ->. reflexivity.
  - eexists _, _. reflexivity.
Qed.

(** C2.  With a transport that hands back no response object, both
    notification paths end in a nil-pointer panic: [resp.Status] is read
    without a check. *)
Theorem absent_response_panics
    (w : StandardWriter) (action : text) (now : Time)
    (event event' : ResultEvent) (data : text) :
  (forall req, fst (transport req) = None) ->
  render w (prepare now event) = (event', (data, None)) ->
  data <> [] ->
  resultOf (sendStatusChangeRequest w action) = Panics nilDereference
  /\ resultOf (Write w now event) = Panics nilDereference.
Proof.
  intros Hnet Hr Hd. split.
  - unfold sendStatusChangeRequest.
    destruct (NewRequest _ _ _) as [req0|]; [|reflexivity].
    rewrite Hnet. reflexivity.
  - rewrite (Write_rendered _ _ _ _ _ Hr Hd). unfold deliver.
    specialize (Hnet (alertPost (asAlert w) data)).
    destruct (transport (alertPost (asAlert w) data)) as [resp err].
    cbn in Hnet. subst resp. reflexivity.
Qed.

End DeliverFacts.

(** C1 on a run with a reachable webhook and a full disk: [Write] returns nil. *)
Lemma Write_append_failure_witness :
  resultOf (Write (E := Scenario.env Scenario.networkUp Scenario.diskBroken
                          Scenario.opens (fun _ => None) Scenario.fullEnviron)
              (Scenario.writer true (Some (FileHandle 1)) None None) 42
              (Scenario.finding (str "t1") (str "GET /") (str "HTTP/1.1 200 OK")))
  = Returns None.
Proof.
  eapply (Write_append_failure_returns_post_error
            (E := Scenario.env Scenario.networkUp Scenario.diskBroken
                    Scenario.opens (fun _ => None) Scenario.fullEnviron)).
  - reflexivity.
  - discriminate.
  - reflexivity.
  - reflexivity.
  - reflexivity.
  - reflexivity.
Defined.

(** C2 on a run with the network down. *)
Lemma absent_response_panics_witness :
  resultOf (sendStatusChangeRequest
              (E := Scenario.env Scenario.networkDown Scenario.diskOk
                      Scenario.opens (fun _ => None) Scenario.fullEnviron)
              (Scenario.writer true None None None) (str "RUNNING"))
  = Panics nilDereference
  /\ resultOf (Write (E := Scenario.env Scenario.networkDown Scenario.diskOk
                             Scenario.opens (fun _ => None) Scenario.fullEnviron)
                 (Scenario.writer true None None None) 42
                 (Scenario.finding (str "t1") (str "GET /") (str "HTTP/1.1 200 OK")))
     = Panics nilDereference.
Proof.
  eapply (absent_response_panics
            (E := Scenario.env Scenario.networkDown Scenario.diskOk
                    Scenario.opens (fun _ => None) Scenario.fullEnviron)).
  - intros req. reflexivity.
  - reflexivity.
  - discriminate.
Defined.

(** ** [Request] *)

Section RequestFacts.
Context {E : Env}.

Lemma UnwrapError_nil_iff (err : option error) :
  UnwrapError err = None <-> err = None.
Proof. destruct err; cbn; split; congruence. Qed.

(** C8.  [Request] does nothing without a trace and an error sink; with a
    trace sink it writes the record there; it writes the same record to the
    error sink exactly when the error is non-nil; the record carries the
    message of the root cause, or "none" for a nil error. *)
Theorem Request_writes_trace_and_error_records
    (w : StandardWriter) (templatePath input requestType : text)
    (requestErr : option error) (data : text) :
  let record :=
    JSONLogRequest.mk templatePath input
      (match requestErr with
       | Some e => errorText (rootCause e)
       | None => str "none"
       end) requestType in
  marshalLogRequest record = (data, None) ->
  let effects := Request w templatePath input requestType requestErr in
  (StandardWriter.traceFile w = None -> StandardWriter.errorFile w = None ->
   effects = [])
  /\ (forall f, StandardWriter.traceFile w = Some f ->
        exists rest, effects = SinkWrite f data :: rest)
  /\ (forall g, StandardWriter.errorFile w = Some g ->
        requestErr <> None ->
        effects = match StandardWriter.traceFile w with
                  | Some f => [SinkWrite f data; SinkWrite g data]
                  | None => [SinkWrite g data]
                  end)
  /\ (requestErr = None ->
        effects = match StandardWriter.traceFile w with
                  | Some f => [SinkWrite f data]
                  | None => []
                  end).
Proof.
  intros record Hm effects. subst effects. unfold Request.
  assert (Hrec : JSONLogRequest.mk templatePath input
                   (match UnwrapError requestErr with
                    | Some unwrappedErr => errorText unwrappedErr
                    | None => str "none"
                    end) requestType = record).
  { subst record. destruct requestErr; reflexivity. }
  rewrite Hrec, Hm.
  destruct (StandardWriter.traceFile w) as [f|],
           (StandardWriter.errorFile w) as [g|],
           requestErr as [e|]; cbn;
    repeat split; intros; try congruence; simplify_eq; eauto.
Qed.

End RequestFacts.

(** C8 on a wrapped connection error, with both sinks configured. *)
Lemma Request_witness :
  Request (E := Scenario.env Scenario.networkUp Scenario.diskOk
                  Scenario.opens (fun _ => None) Scenario.fullEnviron)
    (Scenario.writer true None (Some (FileHandle 2)) (Some (FileHandle 3)))
    (str "tpl") (str "host") (str "http")
    (Some (withMessage (str "dial") Scenario.connectionRefused))
  = [SinkWrite (FileHandle 2) (str "tpl connection refused");
     SinkWrite (FileHandle 3) (str "tpl connection refused")].
Proof.
  pose proof (Request_writes_trace_and_error_records
                (E := Scenario.env Scenario.networkUp Scenario.diskOk
                        Scenario.opens (fun _ => None) Scenario.fullEnviron)
                (Scenario.writer true None (Some (FileHandle 2)) (Some (FileHandle 3)))
                (str "tpl") (str "host") (str "http")
                (Some (withMessage (str "dial") Scenario.connectionRefused))
                (str "tpl connection refused") eq_refl) as H.
  destruct H as (_ & _ & H & _).
  apply (H (FileHandle 3) eq_refl). discriminate.
Defined.

(** ** [Write] before the critical section *)

Section WriteFacts.
Context {E : Env}.

Lemma newResponseString_lines (httpVersion : text) (statusCode : Z)
    (headers : list (text * text)) :
  newResponseString httpVersion statusCode headers
  = preamble httpVersion statusCode ++ concat (map headerLine headers).
Proof.
  unfold newResponseString. fold (preamble httpVersion statusCode).
  generalize (preamble httpVersion statusCode) as acc.
  induction headers as [|nv headers IH]; intros acc; cbn.
  - by rewrite app_nil_r.
  - rewrite IH. unfold headerLine. by rewrite <- app_assoc.
Qed.

Lemma prepare_fields (now : Time) (event : ResultEvent) :
  ResultEvent.Timestamp (prepare now event) = now
  /\ ResultEvent.Request (prepare now event)
     = EncodeToString (ResultEvent.Request event)
  /\ ResultEvent.Response (prepare now event)
     = EncodeToString
         (let '(httpVersion, statusCode, headers) :=
            extractResponseData (ResultEvent.Response event) in
          newResponseString httpVersion statusCode (rangeHeaders headers)).
Proof.
  unfold prepare.
  destruct (isEmpty (ResultEvent.TemplatePath event)).
  - cbn. destruct (extractResponseData _) as [[v c] h]. cbn. auto.
  - destruct (TemplatePathURL _) as [tpl url]. cbn.
    destruct (extractResponseData _) as [[v c] h]. cbn. auto.
Qed.

Lemma Write_event (w : StandardWriter) (now : Time) (event : ResultEvent) :
  eventAfter (Write w now event) = fst (render w (prepare now event)).
Proof.
  unfold Write. destruct (render w (prepare now event)) as [e' [data [err|]]]; cbn.
  - reflexivity.
  - destruct (length data =? 0)%nat; [reflexivity|].
    destruct (deliver w e' data) as [[w' eff] r]. reflexivity.
Qed.

(** C10.  A rendering of zero bytes makes [Write] return nil at once: the
    writer is unchanged and no effect is performed (no lock, no alert, no
    write to the output file); the event handed to the renderer already has
    its timestamp, request and response rewritten. *)
Theorem Write_empty_rendering_returns_early
    (w : StandardWriter) (now : Time) (event event' : ResultEvent) :
  render w (prepare now event) = (event', ([], None)) ->
  Write w now event = (w, event', [], Returns None)
  /\ ResultEvent.Timestamp (prepare now event) = now
  /\ ResultEvent.Request (prepare now event)
     = EncodeToString (ResultEvent.Request event)
  /\ ResultEvent.Response (prepare now event)
     = EncodeToString
         (let '(httpVersion, statusCode, headers) :=
            extractResponseData (ResultEvent.Response event) in
          newResponseString httpVersion statusCode (rangeHeaders headers)).
Proof.
  intros Hr. split; [|apply prepare_fields].
  unfold Write. rewrite Hr. reflexivity.
Qed.

End WriteFacts.

(** C10 on a finding that the screen renderer prints as nothing. *)
Lemma Write_empty_rendering_witness :
  Write (E := Scenario.env Scenario.networkUp Scenario.diskOk
                Scenario.opens (fun _ => None) Scenario.fullEnviron)
    (Scenario.writer false (Some (FileHandle 1)) None None) 42
    (Scenario.finding [] (str "GET /") (str "HTTP/1.1 200 OK"))
  = (Scenario.writer false (Some (FileHandle 1)) None None,
     prepare (E := Scenario.env Scenario.networkUp Scenario.diskOk
                     Scenario.opens (fun _ => None) Scenario.fullEnviron)
       42 (Scenario.finding [] (str "GET /") (str "HTTP/1.1 200 OK")),
     [], Returns None).
Proof.
  apply (Write_empty_rendering_returns_early
           (E := Scenario.env Scenario.networkUp Scenario.diskOk
                   Scenario.opens (fun _ => None) Scenario.fullEnviron)).
  reflexivity.
Defined.

(** ** [NewStandardWriter] *)

Section ConstructorFacts.
Context {E : Env}.




End ConstructorFacts.



(** ** Base64 text *)

Lemma b64char_in_alphabet (i : N) : is_b64_char (b64char i) = true.
Proof.
  unfold is_b64_char, b64char.
  apply existsb_exists.
  destruct (nth_in_or_default (N.to_nat i) encodeStd padChar) as [Hin|Heq].
  - exists (nth (N.to_nat i) encodeStd padChar). split.
    + right. exact Hin.
    + apply Ascii.eqb_refl.
  - exists padChar. split.
    + left. reflexivity.
    + rewrite Heq. apply Ascii.eqb_refl.
Qed.

Lemma padChar_in_alphabet : is_b64_char padChar = true.
Proof. reflexivity. Qed.

(** Induction three bytes at a time, as [EncodeToString] consumes its input. *)
Lemma triples_ind (P : text -> Prop) :
  P [] -> (forall a, P [a]) -> (forall a b, P [a; b]) ->
  (forall a b c rest, P rest -> P (a :: b :: c :: rest)) ->
  forall s, P s.
Proof.
  intros H0 H1 H2 H3 s.
  assert (H : P s /\ (forall a, P (a :: s)) /\ (forall a b, P (a :: b :: s))).
  { induction s as [|c s (IH0 & IH1 & IH2)].
    - auto.
    - repeat split; auto. }
  apply H.
Qed.

Lemma EncodeToString_alphabet (src : text) :
  Forall (fun c => is_b64_char c = true) (EncodeToString src).
Proof.
  induction src as [|a|a b|a b c rest IH] using triples_ind; cbn [EncodeToString].
  - constructor.
  - repeat constructor; apply b64char_in_alphabet.
  - repeat constructor; apply b64char_in_alphabet.
  - repeat (constructor; [apply b64char_in_alphabet|]). exact IH.
Qed.

Lemma EncodeToString_length (src : text) :
  (length (EncodeToString src) = 4 * ((length src + 2) / 3))%nat.
Proof.
  induction src as [|a|a b|a b c rest IH] using triples_ind; cbn [EncodeToString].
  - reflexivity.
  - reflexivity.
  - reflexivity.
  - cbn [length]. rewrite IH.
    replace (S (S (S (length rest))) + 2)%nat with (1 * 3 + (length rest + 2))%nat by lia.
    rewrite Nat.div_add_l by lia. lia.
Qed.

(** ** What [Write] leaves in the event *)

Section EventFacts.
Context {E : Env}.

(** C5.  When [Write] has made its assignments, and so when the event is
    handed to the renderer, the event carries the clock value of the call
    as its timestamp, the base64 text of the original request, and the
    base64 text of the canonical rendering: the two-line preamble and one
    line per captured header, in the order [range] visited the map.
    [Write] assigns nothing to the event afterwards, so the event after the
    call is the one the renderer leaves.  With the renderers of the package
    it keeps the timestamp on every path; it keeps the two base64 texts in
    screen mode and in JSON mode with [jsonReqResp], and has an empty
    request and response in JSON mode without it. *)
Theorem Write_stamps_and_encodes
    (w : StandardWriter) (now : Time) (event : ResultEvent)
    (httpVersion : text) (statusCode : Z) (headers : gmap text text) :
  (forall m, rangeHeaders m ≡ₚ map_to_list m) ->
  extractResponseData (ResultEvent.Response event)
    = (httpVersion, statusCode, headers) ->
  let handed := prepare now event in
  let after := eventAfter (Write w now event) in
  stampedAndEncoded now event httpVersion statusCode headers handed
  /\ after = fst (render w handed)
  /\ (rendererEffects ->
      ResultEvent.Timestamp after = now
      /\ if StandardWriter.json w && negb (StandardWriter.jsonReqResp w)
         then ResultEvent.Request after = [] /\ ResultEvent.Response after = []
         else stampedAndEncoded now event httpVersion statusCode headers after).
Proof.
  intros Hrange Hextract handed after. subst handed after.
  assert (Hhanded : stampedAndEncoded now event httpVersion statusCode headers
                      (prepare now event)).
  { destruct (prepare_fields now event) as (Pts & Preq & Presp).
    rewrite Hextract in Presp. unfold stampedAndEncoded.
    rewrite Pts, Preq, Presp. repeat split.
    - exists (rangeHeaders headers). split; [apply Hrange|].
      by rewrite newResponseString_lines.
    - apply EncodeToString_alphabet.
    - apply EncodeToString_alphabet. }
  split; [exact Hhanded|]. split; [apply Write_event|].
  intros [Hjson Hscreen]. rewrite Write_event. unfold render.
  destruct (StandardWriter.json w); cbn [andb].
  - rewrite Hjson.
    destruct (StandardWriter.jsonReqResp w); cbn [negb].
    + split; [apply Hhanded|exact Hhanded].
    + split; [apply Hhanded|]. split; reflexivity.
  - specialize (Hscreen w (prepare now event)).
    destruct (formatScreen w (prepare now event)) as [e' data].
    cbn [fst] in *. subst e'. split; [apply Hhanded|exact Hhanded].
Qed.

End EventFacts.

(** C5, the claim as stated fails: in JSON mode without [jsonReqResp] the
    renderer empties the two fields, so after the call the request is not
    the base64 text of the original request, and the response is empty. *)
Lemma Write_json_leaves_no_request :
  let E := Trial.terse Trial.online in
  let event :=
    Scenario.finding (str "t1") (str "GET / HTTP/1.1")
      (str "HTTP/1.1 200 OK" ++ CRLF ++ str "Content-Type: text/html"
         ++ CRLF ++ CRLF ++ str "<html/>") in
  let after :=
    eventAfter (Write (Scenario.writer true None None None) 42 event) in
  rendererEffects
  /\ StandardWriter.jsonReqResp (Scenario.writer true None None None) = false
  /\ EncodeToString (ResultEvent.Request event) = str "R0VUIC8gSFRUUC8xLjE="
  /\ ResultEvent.Request after = []
  /\ ResultEvent.Request after <> EncodeToString (ResultEvent.Request event)
  /\ ResultEvent.Response after = [].
Proof.
  cbn zeta. split; [split; intros w e; reflexivity|].
  split; [reflexivity|]. split; [reflexivity|]. split; [reflexivity|].
  split; [discriminate|reflexivity].
Qed.

(** C5 on the example response of the spec, written in screen mode. *)
Lemma Write_stamps_and_encodes_witness :
  let E := Trial.terse Trial.online in
  let after :=
    eventAfter
      (Write (Scenario.writer false None None None) 42
         (Scenario.finding (str "t1") (str "GET / HTTP/1.1")
            (str "HTTP/1.1 200 OK" ++ CRLF ++ str "Content-Type: text/html"
               ++ CRLF ++ CRLF ++ str "<html/>"))) in
  ResultEvent.Timestamp after = 42
  /\ ResultEvent.Request after = str "R0VUIC8gSFRUUC8xLjE="
  /\ ResultEvent.Response after
     = EncodeToString
         (str "HTTP version: 1.1" ++ [LF] ++ str "Status code: 200" ++ [LF]
            ++ str "content-type: text/html" ++ [LF]).
Proof.
  intros E after.
  destruct (Write_stamps_and_encodes (E := E)
              (Scenario.writer false None None None) 42
              (Scenario.finding (str "t1") (str "GET / HTTP/1.1")
                 (str "HTTP/1.1 200 OK" ++ CRLF ++ str "Content-Type: text/html"
                    ++ CRLF ++ CRLF ++ str "<html/>"))
              (str "1.1") 200 {[ str "content-type" := str "text/html" ]})
    as (_ & _ & Hafter).
  - intros m. reflexivity.
  - vm_compute. reflexivity.
  - destruct Hafter as (Hts & _ & Hreq & _).
    + split; intros w e; reflexivity.
    + split; [exact Hts|]. split; [exact Hreq|]. vm_compute. reflexivity.
Defined.

(** ** [sanitizeFileName] *)

Lemma sanitizeFileName_trim (isWindows : bool) (x : text) :
  sanitizeFileName isWindows x = TrimPrefix (replaced isWindows x) (str "__").
Proof. reflexivity. Qed.

Lemma replaceFrom_absent (old new s : text) :
  occurs old s = false -> replaceFrom old new 0 s = s.
Proof.
  induction s as [|c s IH]; [reflexivity|].
  cbn [occurs replaceFrom]. intros H.
  apply orb_false_iff in H as [Hp Ho].
  rewrite Hp, IH; auto.
Qed.

Lemma occurs_char (c : ascii) (s : text) :
  ~ In c s -> occurs [c] s = false.
Proof.
  induction s as [|x s IH]; [reflexivity|].
  intros Hnot. cbn [occurs HasPrefix].
  rewrite IH by (intros H; apply Hnot; right; exact H).
  destruct (Ascii.eqb_spec x c) as [->|Hne]; [|reflexivity].
  exfalso. apply Hnot. left. reflexivity.
Qed.

(** A replacement only brings in characters of the replacement text. *)
Lemma replaceFrom_In (old new : text) (c : ascii) (s : text) (skip : nat) :
  In c (replaceFrom old new skip s) -> In c s \/ In c new.
Proof.
  revert skip. induction s as [|x s IH]; intros skip; cbn [replaceFrom].
  - auto.
  - destruct skip as [|n].
    + destruct (HasPrefix (x :: s) old).
      * intros H. apply in_app_or in H as [H|H]; [auto|].
        destruct (IH _ H); [left; right|]; auto.
      * intros [->|H]; [left; left; reflexivity|].
        destruct (IH _ H); [left; right|]; auto.
    + intros H. destruct (IH _ H); [left; right|]; auto.
Qed.

(** Replacing a character by another text removes it. *)
Lemma replaceFrom_char_gone (c : ascii) (new s : text) :
  ~ In c new -> ~ In c (replaceFrom [c] new 0 s).
Proof.
  intros Hnew. induction s as [|x s IH]; cbn [replaceFrom HasPrefix length Nat.sub].
  - auto.
  - destruct (Ascii.eqb_spec x c) as [->|Hne]; cbn [andb].
    + intros H. apply in_app_or in H as [H|H]; auto.
    + intros [->|H]; [congruence|auto].
Qed.

Lemma ReplaceAll_keeps_absent (c : ascii) (s old new : text) :
  ~ In c s -> ~ In c new -> ~ In c (ReplaceAll s old new).
Proof.
  intros Hs Hnew H. unfold ReplaceAll in H.
  apply replaceFrom_In in H as [H|H]; auto.
Qed.

Lemma TrimPrefix_In (c : ascii) (s prefix : text) :
  In c (TrimPrefix s prefix) -> In c s.
Proof.
  unfold TrimPrefix. destruct (HasPrefix s prefix); [|auto].
  intros H. apply list_elem_of_In in H. apply list_elem_of_In.
  eapply subseteq_drop; eauto.
Qed.

Lemma underscore_only (c : ascii) : c <> "_"%char -> ~ In c (str "_").
Proof. intros Hne [H|[]]. congruence. Qed.

(** The characters the replacement steps remove are absent afterwards. *)
Lemma replaced_clean (isWindows : bool) (x : text) (c : ascii) :
  In c (str "/\-.") -> ~ In c (replaced isWindows x).
Proof.
  intros Hc. unfold replaced.
  assert (Hu : ~ In c (str "_")).
  { apply underscore_only. cbn in Hc. intuition (subst; discriminate). }
  assert (Hw : forall s, ~ In c s ->
             ~ In c (if isWindows then ReplaceAll s (str ":") (str "_") else s)).
  { intros s Hs. destruct isWindows; [apply ReplaceAll_keeps_absent|]; auto. }
  apply Hw.
  cbn in Hc. destruct Hc as [<-|[<-|[<-|[<-|[]]]]].
  - do 3 (apply ReplaceAll_keeps_absent; [|exact Hu]).
    apply replaceFrom_char_gone. exact Hu.
  - do 2 (apply ReplaceAll_keeps_absent; [|exact Hu]).
    apply (replaceFrom_char_gone "\"%char). exact Hu.
  - apply ReplaceAll_keeps_absent; [|exact Hu].
    apply (replaceFrom_char_gone "-"%char). exact Hu.
  - apply (replaceFrom_char_gone "."%char). exact Hu.
Qed.

Lemma replaced_no_colon (x : text) : ~ In ":"%char (replaced true x).
Proof.
  unfold replaced. apply (replaceFrom_char_gone ":"%char).
  apply underscore_only. discriminate.
Qed.

Lemma sanitizeFileName_clean (isWindows : bool) (x : text) (c : ascii) :
  In c (str "/\-.") -> ~ In c (sanitizeFileName isWindows x).
Proof.
  intros Hc H. rewrite sanitizeFileName_trim in H.
  apply TrimPrefix_In in H. revert H. by apply replaced_clean.
Qed.

(** Text free of the replaced characters and of the two scheme prefixes is
    left as it is by the replacement steps. *)
Lemma replaced_fixpoint (isWindows : bool) (y : text) :
  (forall c, In c (str "/\-.") -> ~ In c y) ->
  (isWindows = true -> ~ In ":"%char y) ->
  occurs (str "http:") y = false ->
  occurs (str "https:") y = false ->
  replaced isWindows y = y.
Proof.
  intros Hclean Hcolon Hhttp Hhttps. unfold replaced, ReplaceAll.
  rewrite (replaceFrom_absent (str "http:")) by exact Hhttp.
  rewrite (replaceFrom_absent (str "https:")) by exact Hhttps.
  rewrite (replaceFrom_absent (str "/"))
    by (apply occurs_char, Hclean; cbn; auto).
  rewrite (replaceFrom_absent (str "\"))
    by (apply (occurs_char "\"%char), Hclean; cbn; auto).
  rewrite (replaceFrom_absent (str "-"))
    by (apply (occurs_char "-"%char), Hclean; cbn; auto).
  rewrite (replaceFrom_absent (str "."))
    by (apply (occurs_char "."%char), Hclean; cbn; auto).
  destruct isWindows; [|reflexivity].
  apply replaceFrom_absent, (occurs_char ":"%char), Hcolon. reflexivity.
Qed.

(** C4 as the code has it.  The output has no slash and no backslash; a
    leading double underscore of the input is removed, the rest being only
    replaced; the example of the spec evaluates as stated; and sanitizing
    twice equals sanitizing once whenever the first output neither starts
    with a double underscore nor contains one of the two scheme prefixes. *)
Theorem sanitizeFileName_properties (isWindows : bool) (x : text) :
  let y := sanitizeFileName isWindows x in
  ~ In "/"%char y
  /\ ~ In "\"%char y
  /\ sanitizeFileName isWindows (str "__" ++ x) = replaced isWindows x
  /\ sanitizeFileName isWindows (str "https://example.com/path")
     = str "example_com_path"
  /\ (HasPrefix y (str "__") = false ->
      occurs (str "http:") y = false ->
      occurs (str "https:") y = false ->
      sanitizeFileName isWindows y = y).
Proof.
  intros y. subst y. split; [|split; [|split; [|split]]].
  - apply sanitizeFileName_clean. cbn. auto.
  - apply sanitizeFileName_clean. cbn. auto.
  - rewrite sanitizeFileName_trim.
    assert (Hr : replaced isWindows (str "__" ++ x)
                 = str "__" ++ replaced isWindows x).
    { unfold replaced, ReplaceAll. destruct isWindows; reflexivity. }
    rewrite Hr. reflexivity.
  - destruct isWindows; vm_compute; reflexivity.
  - intros Hprefix Hhttp Hhttps.
    rewrite sanitizeFileName_trim, replaced_fixpoint; auto.
    + unfold TrimPrefix. by rewrite Hprefix.
    + intros c Hc. by apply sanitizeFileName_clean.
    + intros -> H. rewrite sanitizeFileName_trim in H.
      apply TrimPrefix_In in H. revert H. apply replaced_no_colon.
Qed.

(** C4, the claim as stated fails: sanitizing four underscores gives two,
    and sanitizing those gives the empty name. *)
Lemma sanitizeFileName_not_idempotent :
  sanitizeFileName false (str "____") = str "__"
  /\ sanitizeFileName false (sanitizeFileName false (str "____")) = []
  /\ sanitizeFileName false (sanitizeFileName false (str "____"))
     <> sanitizeFileName false (str "____").
Proof. repeat split. discriminate. Qed.

(** C4 on the example of the spec: sanitizing it twice changes nothing. *)
Lemma sanitizeFileName_properties_witness :
  sanitizeFileName false (sanitizeFileName false (str "https://example.com/path"))
  = sanitizeFileName false (str "https://example.com/path").
Proof.
  apply (sanitizeFileName_properties false (str "https://example.com/path"));
    reflexivity.
Defined.

(** ** The matcher and the status line *)

Lemma prevAfter_cons (prev : option ascii) (c : ascii) (xs : text) :
  prevAfter prev (c :: xs) = prevAfter (Some c) xs.
Proof.
  unfold prevAfter. destruct xs as [|a xs]; [reflexivity|].
  rewrite last_cons_cons.
  destruct (last (a :: xs)) eqn:H; [reflexivity|].
  apply last_None in H. discriminate.
Qed.

(** A successful greedy repetition has read some run of the class and the
    continuation has succeeded on what follows. *)
Lemma star_inv {R : Type} (p : ascii -> bool) (k : option ascii -> text -> option R)
    (prev : option ascii) (s : text) (r : R) :
  star p k prev s = Some r ->
  exists xs rest,
    s = xs ++ rest /\ Forall (fun c => p c = true) xs
    /\ k (prevAfter prev xs) rest = Some r.
Proof.
  revert prev. induction s as [|c s IH]; intros prev; cbn [star].
  - intros H. exists [], []. auto.
  - destruct (p c) eqn:Hp.
    + destruct (star p k (Some c) s) as [r0|] eqn:Hs.
      * intros [= <-]. destruct (IH _ Hs) as (xs & rest & -> & Hall & Hk).
        exists (c :: xs), rest. rewrite prevAfter_cons. auto.
      * intros H. exists [], (c :: s). auto.
    + intros H. exists [], (c :: s). auto.
Qed.

Lemma plus_inv {R : Type} (p : ascii -> bool) (k : option ascii -> text -> option R)
    (prev : option ascii) (s : text) (r : R) :
  plus p k prev s = Some r ->
  exists c xs rest,
    s = c :: xs ++ rest /\ p c = true /\ Forall (fun c => p c = true) xs
    /\ k (prevAfter (Some c) xs) rest = Some r.
Proof.
  unfold plus. destruct s as [|c s]; [discriminate|].
  destruct (p c) eqn:Hp; [|discriminate].
  intros H. destruct (star_inv _ _ _ _ _ H) as (xs & rest & -> & Hall & Hk).
  exists c, xs, rest. auto.
Qed.

Lemma digit_space_disjoint (c : ascii) : is_digit c && is_space c = false.
Proof. by destruct c as [[] [] [] [] [] [] [] []]. Qed.

Lemma digit_not_space (c : ascii) : is_digit c = true -> is_space c = false.
Proof. intros H. pose proof (digit_space_disjoint c) as D. by rewrite H in D. Qed.

Lemma space_not_digit (c : ascii) : is_space c = true -> is_digit c = false.
Proof.
  intros H. pose proof (digit_space_disjoint c) as D.
  rewrite H, andb_true_r in D. exact D.
Qed.

Lemma skipWhile_stop (p : ascii -> bool) (xs : text) (c : ascii) (rest : text) :
  Forall (fun c => p c = true) xs -> p c = false ->
  skipWhile p (xs ++ c :: rest) = c :: rest.
Proof.
  intros Hall Hc. induction Hall as [|x xs Hx _ IH]; cbn.
  - by rewrite Hc.
  - by rewrite Hx.
Qed.

Lemma afterRun_stop (p : ascii -> bool) (x : ascii) (xs : text) (c : ascii)
    (rest : text) :
  p x = true -> Forall (fun c => p c = true) xs -> p c = false ->
  afterRun p (x :: xs ++ c :: rest) = Some (c :: rest).
Proof.
  intros Hx Hall Hc. cbn. rewrite Hx. by rewrite skipWhile_stop.
Qed.

(** The next character of the input is the literal the matcher compares
    it with. *)
Ltac read_literal raw :=
  let x := fresh "x" in
  destruct raw as [|x raw]; [discriminate|];
  match goal with
  | |- context [Ascii.eqb x ?c] =>
      destruct (Ascii.eqb_spec x c) as [->|]; [|discriminate]
  end.

(** Where [statusPattern] matches, the scanner finds a status line. *)
Lemma statusPattern_match_shape (prev : option ascii) (raw : text)
    (m : list text * text) :
  matchAt statusPattern 2 prev raw = Some m -> hasStatusLine raw = true.
Proof.
  unfold matchAt, statusPattern. cbn [run lits str list_ascii_of_string].
  destruct prev; [discriminate|].
  do 5 read_literal raw.
  intros H.
  apply plus_inv in H as (c1 & xs1 & rest1 & -> & Hc1 & Hxs1 & H).
  destruct rest1 as [|d rest1]; [discriminate|].
  destruct (Ascii.eqb_spec d ".") as [->|]; [|discriminate].
  apply plus_inv in H as (c2 & xs2 & rest2 & -> & Hc2 & Hxs2 & H).
  apply plus_inv in H as (w1 & ws1 & rest3 & -> & Hw1 & Hws1 & H).
  apply plus_inv in H as (c3 & xs3 & rest4 & -> & Hc3 & Hxs3 & H).
  apply plus_inv in H as (w2 & ws2 & rest5 & -> & Hw2 & Hws2 & H).
  unfold hasStatusLine, scan, statusLineSteps.
  cbn [foldl]. unfold afterPrefix. cbn [HasPrefix str list_ascii_of_string].
  cbn [Ascii.eqb Bool.eqb andb length drop].
  rewrite (afterRun_stop is_digit c1 xs1 "."%char) by auto.
  cbn [afterChar Ascii.eqb Bool.eqb].
  rewrite (afterRun_stop is_digit c2 xs2 w1) by auto using space_not_digit.
  rewrite (afterRun_stop is_space w1 ws1 c3) by auto using digit_not_space.
  rewrite (afterRun_stop is_digit c3 xs3 w2) by auto using space_not_digit.
  cbn [afterRun]. by rewrite Hw2.
Qed.

Lemma statusPattern_only_at_start (c : ascii) (s : text) :
  find statusPattern 2 (Some c) s = None.
Proof.
  revert c. induction s as [|x s IH]; intros c; [reflexivity|].
  cbn [find]. unfold matchAt at 1, statusPattern at 1. cbn [run]. apply IH.
Qed.

Lemma no_status_line_no_match (raw : text) :
  hasStatusLine raw = false -> FindStringSubmatch statusPattern 2 raw = [].
Proof.
  intros Hno. unfold FindStringSubmatch.
  destruct (find statusPattern 2 None raw) as [[caps rest]|] eqn:Hfind;
    [|reflexivity].
  exfalso.
  assert (Hm : exists m, matchAt statusPattern 2 None raw = Some m).
  { destruct raw as [|x raw]; cbn [find] in Hfind.
    - destruct (matchAt statusPattern 2 None []); [eauto|discriminate].
    - destruct (matchAt statusPattern 2 None (x :: raw)); [eauto|].
      by rewrite statusPattern_only_at_start in Hfind. }
  destruct Hm as [m Hm]. apply statusPattern_match_shape in Hm. congruence.
Qed.

Section NormalizerFacts.
Context {E : Env}.


End NormalizerFacts.


(** ** The matcher on a well-formed response *)

Lemma star_stops {R : Type} (p : ascii -> bool) (k : option ascii -> text -> option R)
    (prev : option ascii) (s : text) :
  stops p s -> star p k prev s = k prev s.
Proof. destruct s as [|c s]; cbn; [reflexivity|]. by intros ->. Qed.

Lemma star_greedy {R : Type} (p : ascii -> bool) (k : option ascii -> text -> option R)
    (prev : option ascii) (xs rest : text) (r : R) :
  Forall (fun c => p c = true) xs -> stops p rest ->
  k (prevAfter prev xs) rest = Some r ->
  star p k prev (xs ++ rest) = Some r.
Proof.
  intros Hall Hstop. revert prev.
  induction Hall as [|x xs Hx _ IH]; intros prev Hk.
  - cbn [app]. by rewrite star_stops.
  - cbn [app star]. rewrite Hx. rewrite prevAfter_cons in Hk.
    by rewrite (IH _ Hk).
Qed.

Lemma plus_greedy {R : Type} (p : ascii -> bool) (k : option ascii -> text -> option R)
    (prev : option ascii) (c : ascii) (xs rest : text) (r : R) :
  p c = true -> Forall (fun c => p c = true) xs -> stops p rest ->
  k (prevAfter (Some c) xs) rest = Some r ->
  plus p k prev (c :: xs ++ rest) = Some r.
Proof.
  intros Hc Hall Hstop Hk. cbn [plus]. rewrite Hc. by apply star_greedy.
Qed.

Lemma take_consumed (xs rest : text) :
  take (length (xs ++ rest) - length rest) (xs ++ rest) = xs.
Proof.
  rewrite length_app.
  replace (length xs + length rest - length rest)%nat with (length xs) by lia.
  apply take_app_length.
Qed.

Lemma take_consumed_cons (c : ascii) (xs rest : text) :
  take (length (c :: xs ++ rest) - length rest) (c :: xs ++ rest) = c :: xs.
Proof. apply (take_consumed (c :: xs)). Qed.

Lemma headerPattern_line (n1 : ascii) (ns : text) (x1 : ascii) (xs eols rest : text) :
  is_name_char n1 = true -> Forall (fun c => is_name_char c = true) ns ->
  is_space x1 = false -> not_eol x1 = true ->
  Forall (fun c => not_eol c = true) xs ->
  Forall (fun c => is_eol c = true) eols -> stops is_eol rest ->
  exists whole,
  matchAt headerPattern 2 (Some LF)
    ((n1 :: ns) ++ str ": " ++ (x1 :: xs) ++ CRLF ++ eols ++ rest)
  = Some ([whole; n1 :: ns; x1 :: xs], rest).
Proof.
  intros Hn1 Hns Hx1s Hx1 Hxs Heols Hrest.
  eexists.
  unfold matchAt, headerPattern. cbn [run]. rewrite Ascii.eqb_refl.
  apply (plus_greedy is_name_char _ _ n1 ns
           (str ": " ++ (x1 :: xs) ++ CRLF ++ eols ++ rest));
    [exact Hn1|exact Hns|reflexivity|].
  cbn [str list_ascii_of_string app Ascii.eqb Bool.eqb].
  apply (star_greedy is_space _ _ [" "%char] (x1 :: xs ++ CRLF ++ eols ++ rest));
    [by repeat constructor|exact Hx1s|].
  apply (star_greedy not_eol _ _ (x1 :: xs) (CRLF ++ eols ++ rest));
    [by constructor|reflexivity|].
  apply (plus_greedy is_eol _ _ CR (LF :: eols) rest);
    [reflexivity|by constructor|exact Hrest|].
  rewrite (take_consumed_cons x1 xs), (take_consumed_cons n1 ns).
  reflexivity.
Qed.

Lemma forallb_Forall (p : ascii -> bool) (s : text) :
  forallb p s = true -> Forall (fun c => p c = true) s.
Proof.
  induction s as [|c s IH]; cbn; [constructor|].
  intros H. apply andb_true_iff in H as [Hc Hs]. constructor; auto.
Qed.

Lemma nonEmptyAll_inv (p : ascii -> bool) (s : text) :
  nonEmptyAll p s = true ->
  exists c t, s = c :: t /\ p c = true /\ Forall (fun c => p c = true) t.
Proof.
  unfold nonEmptyAll. destruct s as [|c t]; [discriminate|]. cbn.
  intros H. apply andb_true_iff in H as [Hc Ht].
  exists c, t. auto using forallb_Forall.
Qed.

Lemma prevAfter_app (prev : option ascii) (xs ys : text) :
  prevAfter prev (xs ++ ys) = prevAfter (prevAfter prev xs) ys.
Proof.
  unfold prevAfter. rewrite last_app.
  destruct (last ys); [reflexivity|]. by destruct (last xs).
Qed.

Lemma findAll_skip (r : regex) (g : nat) (prev : option ascii) (xs rest : text) :
  findAll r g (length xs) prev (xs ++ rest) = findAll r g 0 (prevAfter prev xs) rest.
Proof.
  revert prev. induction xs as [|x xs IH]; intros prev.
  - reflexivity.
  - cbn [length app findAll]. rewrite IH. by rewrite prevAfter_cons.
Qed.

Lemma findAll_match (r : regex) (g : nat) (prev : option ascii)
    (consumed rest : text) (caps : list text) :
  consumed <> [] ->
  matchAt r g prev (consumed ++ rest) = Some (caps, rest) ->
  findAll r g 0 prev (consumed ++ rest)
  = caps :: findAll r g 0 (prevAfter prev consumed) rest.
Proof.
  intros Hne Hm. destruct consumed as [|c xs]; [contradiction|].
  cbn [app findAll] in *. rewrite Hm. f_equal.
  replace (length (c :: xs ++ rest) - length rest - 1)%nat with (length xs)
    by (cbn [length]; rewrite length_app; lia).
  rewrite findAll_skip. by rewrite prevAfter_cons.
Qed.

Lemma findAll_nomatch (r : regex) (g : nat) (prev : option ascii) (c : ascii)
    (s : text) :
  matchAt r g prev (c :: s) = None ->
  findAll r g 0 prev (c :: s) = findAll r g 0 (Some c) s.
Proof. intros H. cbn [findAll]. by rewrite H. Qed.

Lemma headerPattern_mid_line (c : ascii) (s : text) :
  c <> LF -> matchAt headerPattern 2 (Some c) s = None.
Proof.
  intros Hne. unfold matchAt, headerPattern. cbn [run].
  by destruct (Ascii.eqb_spec c LF).
Qed.

Lemma headerPattern_not_name (prev : option ascii) (c : ascii) (s : text) :
  is_name_char c = false -> matchAt headerPattern 2 prev (c :: s) = None.
Proof.
  intros Hc. unfold matchAt, headerPattern. cbn [run plus]. rewrite Hc.
  destruct prev as [p|]; [|reflexivity]. by destruct (Ascii.eqb p LF).
Qed.

Lemma eol_not_name (c : ascii) : is_eol c = true -> is_name_char c = false.
Proof. by destruct c as [[] [] [] [] [] [] [] []]. Qed.

Lemma name_not_eol (c : ascii) : is_name_char c = true -> is_eol c = false.
Proof. by destruct c as [[] [] [] [] [] [] [] []]. Qed.

Lemma findAll_rest_of_line (c : ascii) (xs X : text) :
  c <> LF -> Forall (fun x => x <> LF) xs ->
  findAll headerPattern 2 0 (Some c) (xs ++ LF :: X)
  = findAll headerPattern 2 0 (Some LF) X.
Proof.
  intros Hc Hall. revert c Hc.
  induction Hall as [|x xs Hx _ IH]; intros c Hc; cbn [app].
  - by rewrite findAll_nomatch by by apply headerPattern_mid_line.
  - rewrite findAll_nomatch by by apply headerPattern_mid_line. by apply IH.
Qed.

Lemma findAll_eols (prev : option ascii) (eols body : text) :
  Forall (fun c => is_eol c = true) eols ->
  findAll headerPattern 2 0 prev (eols ++ body)
  = findAll headerPattern 2 0 (prevAfter prev eols) body.
Proof.
  intros Hall. revert prev.
  induction Hall as [|e eols He _ IH]; intros prev; cbn [app].
  - reflexivity.
  - rewrite findAll_nomatch by by apply headerPattern_not_name, eol_not_name.
    rewrite IH. by rewrite prevAfter_cons.
Qed.

Lemma findAll_header_line (n x E R : text) :
  nonEmptyAll is_name_char n = true -> validValue x = true ->
  Forall (fun c => is_eol c = true) E -> stops is_eol R ->
  exists whole,
    findAll headerPattern 2 0 (Some LF) (headerText (n, x) ++ E ++ R)
    = [whole; n; x] :: findAll headerPattern 2 0 (prevAfter (Some LF) E) R.
Proof.
  intros Hn Hx HE HR.
  apply nonEmptyAll_inv in Hn as (n1 & ns & -> & Hn1 & Hns).
  destruct x as [|x1 xs]; [discriminate|].
  cbn [validValue forallb] in Hx.
  apply andb_true_iff in Hx as [Hx1s Hx].
  apply andb_true_iff in Hx as [Hx1 Hxs].
  apply negb_true_iff in Hx1s. apply forallb_Forall in Hxs.
  destruct (headerPattern_line n1 ns x1 xs E R) as [whole Hm]; auto.
  exists whole.
  assert (Htext : headerText (n1 :: ns, x1 :: xs) ++ E ++ R
                  = (headerText (n1 :: ns, x1 :: xs) ++ E) ++ R)
    by by rewrite app_assoc.
  assert (Hsame : (n1 :: ns) ++ str ": " ++ (x1 :: xs) ++ CRLF ++ E ++ R
                  = (headerText (n1 :: ns, x1 :: xs) ++ E) ++ R).
  { unfold headerText. cbn [fst snd]. by rewrite <- !app_assoc. }
  rewrite Hsame in Hm. rewrite Htext.
  assert (Hne : headerText (n1 :: ns, x1 :: xs) ++ E <> [])
    by (unfold headerText; cbn; discriminate).
  rewrite (findAll_match _ _ _ _ _ _ Hne Hm).
  f_equal. rewrite prevAfter_app. f_equal.
  unfold headerText. cbn [fst snd].
  rewrite !app_assoc. unfold CRLF.
  rewrite (prevAfter_app _ _ [CR; LF]). reflexivity.
Qed.

Lemma stopsAt_stops (p : ascii -> bool) (s : text) :
  stopsAt p s = true -> stops p s.
Proof. destruct s as [|c s]; cbn; [done|]. apply negb_true_iff. Qed.

Lemma headerText_starts (nv : text * text) (Z : text) :
  validHeader nv = true -> stops is_eol (headerText nv ++ Z).
Proof.
  unfold validHeader. intros H. apply andb_true_iff in H as [Hn _].
  apply nonEmptyAll_inv in Hn as (n1 & ns & Hn & Hn1 & _).
  unfold headerText. rewrite Hn. cbn. by apply name_not_eol.
Qed.

(** The header matches of a block of header lines, followed by line ends
    and a body. *)
Lemma findAll_header_lines (hdrs : list (text * text)) (eols body : text) :
  forallb validHeader hdrs = true ->
  Forall (fun c => is_eol c = true) eols -> stops is_eol body ->
  map pairOf (findAll headerPattern 2 0 (Some LF)
                (concat (map headerText hdrs) ++ eols ++ body))
  = hdrs ++ map pairOf (findAll headerPattern 2 0 (prevAfter (Some LF) eols) body).
Proof.
  intros Hvalid Heols Hbody.
  induction hdrs as [|[n x] hs IH].
  - cbn [map concat app]. by rewrite findAll_eols.
  - cbn [forallb] in Hvalid. apply andb_true_iff in Hvalid as [Hnx Hhs].
    pose proof Hnx as Hnx'. unfold validHeader in Hnx'. cbn [fst snd] in Hnx'.
    apply andb_true_iff in Hnx' as [Hn Hx].
    cbn [map concat]. rewrite <- app_assoc.
    destruct hs as [|h hs'].
    + cbn [map concat app].
      destruct (findAll_header_line n x eols body Hn Hx Heols Hbody)
        as [whole ->].
      reflexivity.
    + cbn [forallb] in Hhs. pose proof Hhs as Hh.
      apply andb_true_iff in Hh as [Hh _].
      destruct (findAll_header_line n x []
                  (concat (map headerText (h :: hs')) ++ eols ++ body) Hn Hx)
        as [whole Hw].
      * constructor.
      * cbn [map concat]. rewrite <- app_assoc. by apply headerText_starts.
      * cbn [app] in Hw. rewrite Hw. cbn [map]. unfold pairOf at 1. cbn [nth].
        cbn [app]. f_equal. by apply IH.
Qed.

Lemma digit_not_LF (c : ascii) : is_digit c = true -> c <> LF.
Proof. intros H ->. discriminate. Qed.

Lemma not_eol_not_LF (c : ascii) : not_eol c = true -> c <> LF.
Proof. intros H ->. discriminate. Qed.

Lemma digits_not_LF (s : text) :
  nonEmptyAll is_digit s = true -> Forall (fun c => c <> LF) s.
Proof.
  intros H. apply nonEmptyAll_inv in H as (c & t & -> & Hc & Ht).
  constructor; [by apply digit_not_LF|].
  eapply Forall_impl; [exact Ht|]. intros x. apply digit_not_LF.
Qed.

Lemma headerPattern_not_status (W : text) :
  matchAt headerPattern 2 None (str "HTTP/" ++ W) = None.
Proof. reflexivity. Qed.

(** The header pattern finds nothing in the status line. *)
Lemma findAll_status_line (major minor status reason Z : text) :
  nonEmptyAll is_digit major = true -> nonEmptyAll is_digit minor = true ->
  nonEmptyAll is_digit status = true -> forallb not_eol reason = true ->
  findAll headerPattern 2 0 None (statusText major minor status reason ++ Z)
  = findAll headerPattern 2 0 (Some LF) Z.
Proof.
  intros Hmajor Hminor Hstatus Hreason.
  assert (Htext : statusText major minor status reason ++ Z
                  = "H"%char ::
                    (str "TTP/" ++ major ++ str "." ++ minor ++ str " "
                       ++ status ++ str " " ++ reason ++ [CR]) ++ LF :: Z).
  { unfold statusText, CRLF. cbn [str list_ascii_of_string app].
    repeat (rewrite <- app_assoc; cbn [app]). reflexivity. }
  rewrite Htext.
  rewrite findAll_nomatch by apply (headerPattern_not_status (_ ++ _)).
  apply findAll_rest_of_line; [discriminate|].
  repeat (apply Forall_app; split);
    try (by apply digits_not_LF);
    try (by repeat constructor).
  eapply Forall_impl; [by apply forallb_Forall|]. intros x. apply not_eol_not_LF.
Qed.

Lemma holds_Some {A : Type} (P : A -> Prop) (o : option A) :
  holds P o -> exists a, o = Some a /\ P a.
Proof. destruct o as [a|]; [eauto|contradiction]. Qed.

Lemma star_greedy_holds {R : Type} (P : R -> Prop) (p : ascii -> bool)
    (k : option ascii -> text -> option R) (prev : option ascii) (xs rest : text) :
  Forall (fun c => p c = true) xs -> stops p rest ->
  holds P (k (prevAfter prev xs) rest) ->
  holds P (star p k prev (xs ++ rest)).
Proof.
  intros Hall Hstop Hk. apply holds_Some in Hk as (r & Hk & HP).
  by rewrite (star_greedy _ _ _ _ _ _ Hall Hstop Hk).
Qed.

Lemma plus_greedy_holds {R : Type} (P : R -> Prop) (p : ascii -> bool)
    (k : option ascii -> text -> option R) (prev : option ascii) (c : ascii)
    (xs rest : text) :
  p c = true -> Forall (fun c => p c = true) xs -> stops p rest ->
  holds P (k (prevAfter (Some c) xs) rest) ->
  holds P (plus p k prev (c :: xs ++ rest)).
Proof.
  intros Hc Hall Hstop Hk. apply holds_Some in Hk as (r & Hk & HP).
  by rewrite (plus_greedy _ _ _ _ _ _ _ Hc Hall Hstop Hk).
Qed.

(** A repetition in front of a continuation that always succeeds. *)
Lemma star_any_holds {R : Type} (P : R -> Prop) (p : ascii -> bool)
    (k : option ascii -> text -> option R) (prev : option ascii) (s : text) :
  (forall prev' s', holds P (k prev' s')) -> holds P (star p k prev s).
Proof.
  intros Hk. revert prev. induction s as [|c s IH]; intros prev; cbn [star].
  - apply Hk.
  - destruct (p c); [|apply Hk].
    specialize (IH (Some c)). destruct (star p k (Some c) s); [exact IH|apply Hk].
Qed.

Lemma take_consumed_eq (pre s s' : text) :
  s = pre ++ s' -> take (length s - length s') s = pre.
Proof. intros ->. apply take_consumed. Qed.

(** The status pattern on a text that begins with a status line: it
    matches, and its groups are the version and the status code. *)
Lemma statusPattern_line (major minor sp status : text) (w : ascii) (Z : text) :
  nonEmptyAll is_digit major = true -> nonEmptyAll is_digit minor = true ->
  nonEmptyAll is_space sp = true ->
  nonEmptyAll is_digit status = true -> is_space w = true ->
  holds (fun m => length (fst m) = 3%nat
                  /\ nth 1 (fst m) [] = major ++ str "." ++ minor
                  /\ nth 2 (fst m) [] = status)
    (matchAt statusPattern 2 None
       (str "HTTP/" ++ major ++ str "." ++ minor ++ sp ++ status ++ w :: Z)).
Proof.
  intros Hmajor Hminor Hsp Hstatus Hw.
  apply nonEmptyAll_inv in Hmajor as (m1 & ms & -> & Hm1 & Hms).
  apply nonEmptyAll_inv in Hminor as (n1 & ns & -> & Hn1 & Hns).
  apply nonEmptyAll_inv in Hsp as (w1 & ws1 & -> & Hw1 & Hws1).
  apply nonEmptyAll_inv in Hstatus as (s1 & ss & -> & Hs1 & Hss).
  unfold matchAt, statusPattern.
  cbn [run lits str list_ascii_of_string app Ascii.eqb Bool.eqb].
  apply plus_greedy_holds; [done|done|reflexivity|].
  cbn [Ascii.eqb Bool.eqb].
  apply plus_greedy_holds; [done|done|by apply space_not_digit|].
  apply plus_greedy_holds; [done|done|by apply digit_not_space|].
  apply plus_greedy_holds; [done|done|by apply space_not_digit|].
  cbn [plus]. rewrite Hw.
  apply star_any_holds. intros prev1 Z1.
  apply star_any_holds. intros prev2 Z2.
  cbn [holds fst].
  rewrite (take_consumed_cons s1 ss).
  rewrite (take_consumed_eq (m1 :: ms ++ "."%char :: n1 :: ns)
             (m1 :: ms ++ "."%char :: n1 :: ns ++ w1 :: ws1 ++ s1 :: ss ++ w :: Z))
    by (cbn [app]; by rewrite <- app_assoc).
  repeat split.
Qed.

Lemma collectHeaders_pairs (matches : list (list text)) :
  collectHeaders matches = headerMap (map pairOf matches).
Proof.
  unfold collectHeaders, headerMap. generalize (∅ : gmap text text) as h.
  induction matches as [|m matches IH]; intros h; cbn [foldl map]; [reflexivity|].
  apply IH.
Qed.

Lemma find_at_start (r : regex) (g : nat) (prev : option ascii) (s : text)
    (m : list text * text) :
  matchAt r g prev s = Some m -> find r g prev s = Some m.
Proof. intros H. destruct s; cbn [find]; by rewrite H. Qed.

Lemma digit_not_sign (c : ascii) :
  is_digit c = true -> Ascii.eqb c "-" = false /\ Ascii.eqb c "+" = false.
Proof. by destruct c as [[] [] [] [] [] [] [] []]. Qed.

Lemma Atoi_digits (s : text) :
  nonEmptyAll is_digit s = true -> decimal s <= maxInt ->
  Atoi s = (decimal s, true).
Proof.
  intros Hs Hmax. pose proof Hs as Hs'.
  apply nonEmptyAll_inv in Hs' as (c & t & -> & Hc & _).
  unfold nonEmptyAll in Hs. cbn [isEmpty negb andb] in Hs.
  destruct (digit_not_sign c Hc) as [Hminus Hplus].
  unfold Atoi. rewrite Hminus, Hplus, Hs.
  destruct (Z.ltb_spec maxInt (decimal (c :: t))); [lia|reflexivity].
Qed.

(** On a response made of a status line, header lines with non-empty
    values, line ends and a body without header-like lines, the version,
    the status code and the header map are those written in the text. *)
Lemma extractResponseData_well_formed
    (major minor status reason : text) (hdrs : list (text * text))
    (eols body : text) :
  nonEmptyAll is_digit major = true -> nonEmptyAll is_digit minor = true ->
  nonEmptyAll is_digit status = true -> decimal status <= maxInt ->
  forallb not_eol reason = true ->
  forallb validHeader hdrs = true ->
  forallb is_eol eols = true -> stopsAt is_eol body = true ->
  findAll headerPattern 2 0 (prevAfter (Some LF) eols) body = [] ->
  extractResponseData
    (statusText major minor status reason
       ++ concat (map headerText hdrs) ++ eols ++ body)
  = (major ++ str "." ++ minor, decimal status, headerMap hdrs).
Proof.
  intros Hmajor Hminor Hstatus Hmax Hreason Hhdrs Heols Hbody Hnone.
  apply forallb_Forall in Heols. apply stopsAt_stops in Hbody.
  unfold extractResponseData.
  assert (Hh : collectHeaders
                 (FindAllStringSubmatch headerPattern 2
                    (statusText major minor status reason
                       ++ concat (map headerText hdrs) ++ eols ++ body))
               = headerMap hdrs).
  { unfold FindAllStringSubmatch.
    rewrite findAll_status_line by assumption.
    rewrite collectHeaders_pairs, findAll_header_lines by assumption.
    rewrite Hnone. cbn [map]. by rewrite app_nil_r. }
  rewrite Hh.
  pose proof (statusPattern_line major minor (str " ") status " "%char
                (reason ++ CRLF ++ concat (map headerText hdrs) ++ eols ++ body)
                Hmajor Hminor eq_refl Hstatus eq_refl) as Hs.
  apply holds_Some in Hs as ([caps rest] & Hm & Hlen & Hv & Hc).
  cbn [fst] in Hlen, Hv, Hc.
  assert (Htext : statusText major minor status reason
                    ++ concat (map headerText hdrs) ++ eols ++ body
                  = str "HTTP/" ++ major ++ str "." ++ minor ++ str " "
                      ++ status ++ " "%char :: reason ++ CRLF
                      ++ concat (map headerText hdrs) ++ eols ++ body).
  { unfold statusText. rewrite <- !app_assoc. reflexivity. }
  rewrite Htext. unfold FindStringSubmatch.
  rewrite (find_at_start _ _ _ _ _ Hm).
  rewrite Hlen, Hv, Hc. cbn [Nat.ltb Nat.leb].
  by rewrite Atoi_digits.
Qed.

(** The entry of a name is the value of the last line carrying it. *)
Lemma headerMap_last_wins (hdrs : list (text * text)) (i : nat) (n x : text) :
  hdrs !! i = Some (n, x) ->
  (forall j n' x', (i < j)%nat -> hdrs !! j = Some (n', x') ->
                   ToLower n' <> ToLower n) ->
  headerMap hdrs !! ToLower n = Some x.
Proof.
  unfold headerMap. revert i.
  induction hdrs as [|[n0 x0] hdrs IH] using rev_ind; intros i Hi Hlater.
  - discriminate.
  - rewrite foldl_app. cbn [foldl fst snd].
    destruct (decide (i = length hdrs)) as [->|Hne].
    + rewrite lookup_app_r, Nat.sub_diag in Hi by lia.
      cbn in Hi. injection Hi as -> ->. apply lookup_insert_eq.
    + assert (Hlt : (i < length hdrs)%nat).
      { apply lookup_lt_Some in Hi. rewrite length_app in Hi. cbn in Hi. lia. }
      rewrite lookup_app_l in Hi by exact Hlt.
      rewrite lookup_insert_ne.
      * apply (IH i Hi). intros j n' x' Hij Hj.
        apply (Hlater j n' x' Hij).
        rewrite lookup_app_l; [exact Hj|]. by apply lookup_lt_Some in Hj.
      * apply (Hlater (length hdrs) n0 x0 Hlt).
        rewrite lookup_app_r, Nat.sub_diag by lia. reflexivity.
Qed.

Example extractResponseData_spec_example :
  extractResponseData
    (str "HTTP/1.1 200 OK" ++ CRLF ++ str "Content-Type: text/html" ++ CRLF
       ++ CRLF ++ str "<html/>")
  = (str "1.1", 200, {[ str "content-type" := str "text/html" ]}).
Proof.
  apply (extractResponseData_well_formed (str "1") (str "1") (str "200")
           (str "OK") [(str "Content-Type", str "text/html")] CRLF
           (str "<html/>")); try reflexivity.
  vm_compute. discriminate.
Qed.


(** ** The scanner and the status pattern agree *)

Lemma skipWhile_inv (p : ascii -> bool) (s : text) :
  exists xs, s = xs ++ skipWhile p s /\ Forall (fun c => p c = true) xs.
Proof.
  induction s as [|c s (xs & Hs & Hxs)]; cbn [skipWhile].
  - exists []. auto.
  - destruct (p c) eqn:Hc.
    + exists (c :: xs). cbn [app]. rewrite <- Hs. auto.
    + exists []. auto.
Qed.

Lemma afterRun_inv (p : ascii -> bool) (s rest : text) :
  afterRun p s = Some rest ->
  exists c xs, s = c :: xs ++ rest /\ p c = true /\ Forall (fun c => p c = true) xs.
Proof.
  destruct s as [|c s]; [discriminate|]. cbn [afterRun].
  destruct (p c) eqn:Hc; [|discriminate]. intros [= <-].
  destruct (skipWhile_inv p s) as (xs & Hs & Hxs).
  exists c, xs. rewrite <- Hs. auto.
Qed.

Lemma HasPrefix_inv (prefix s : text) :
  HasPrefix s prefix = true -> s = prefix ++ drop (length prefix) s.
Proof.
  revert s. induction prefix as [|p prefix IH]; intros s; [reflexivity|].
  destruct s as [|c s]; [discriminate|]. cbn [HasPrefix length drop app].
  intros H. apply andb_true_iff in H as [Hc Hs].
  apply Ascii.eqb_eq in Hc as ->. f_equal. by apply IH.
Qed.

Lemma nonEmptyAll_cons (p : ascii -> bool) (c : ascii) (xs : text) :
  p c = true -> Forall (fun c => p c = true) xs -> nonEmptyAll p (c :: xs) = true.
Proof.
  intros Hc Hxs. unfold nonEmptyAll. cbn [isEmpty negb andb forallb]. rewrite Hc.
  cbn [andb]. induction Hxs as [|x xs Hx _ IH]; [reflexivity|].
  cbn [forallb]. by rewrite Hx.
Qed.

(** Where the scanner finds a status line, [statusPattern] matches. *)
Lemma statusPattern_shape_match (raw : text) :
  hasStatusLine raw = true ->
  exists m, matchAt statusPattern 2 None raw = Some m /\ length (fst m) = 3%nat.
Proof.
  unfold hasStatusLine, scan, statusLineSteps. cbn [foldl].
  unfold afterPrefix.
  destruct (HasPrefix raw (str "HTTP/")) eqn:Hp; [|discriminate].
  apply HasPrefix_inv in Hp. revert Hp.
  generalize (drop (length (str "HTTP/")) raw) as r1. intros r1 ->.
  destruct (afterRun is_digit r1) as [r2|] eqn:H1; [|discriminate].
  apply afterRun_inv in H1 as (m1 & ms & -> & Hm1 & Hms).
  destruct (afterChar "." r2) as [r3|] eqn:H2; [|discriminate].
  destruct r2 as [|d r2]; [discriminate|]. cbn [afterChar] in H2.
  destruct (Ascii.eqb_spec d ".") as [->|]; [|discriminate].
  injection H2 as ->.
  destruct (afterRun is_digit r3) as [r4|] eqn:H3; [|discriminate].
  apply afterRun_inv in H3 as (n1 & ns & -> & Hn1 & Hns).
  destruct (afterRun is_space r4) as [r5|] eqn:H4; [|discriminate].
  apply afterRun_inv in H4 as (w1 & ws1 & -> & Hw1 & Hws1).
  destruct (afterRun is_digit r5) as [r6|] eqn:H5; [|discriminate].
  apply afterRun_inv in H5 as (s1 & ss & -> & Hs1 & Hss).
  destruct (afterRun is_space r6) as [r7|] eqn:H6; [|discriminate].
  apply afterRun_inv in H6 as (w2 & ws2 & -> & Hw2 & Hws2).
  intros _.
  pose proof (statusPattern_line (m1 :: ms) (n1 :: ns) (w1 :: ws1) (s1 :: ss)
                w2 (ws2 ++ r7)) as H.
  apply holds_Some in H as (m & Hm & Hlen & _); auto using nonEmptyAll_cons.
  exists m. split; [|exact Hlen]. rewrite <- Hm. reflexivity.
Qed.

(** The scanner and the status pattern recognise the same texts. *)
Lemma statusPattern_recognises (raw : text) :
  hasStatusLine raw = true <-> FindStringSubmatch statusPattern 2 raw <> [].
Proof.
  split.
  - intros H. apply statusPattern_shape_match in H as ([caps rest] & Hm & Hlen).
    unfold FindStringSubmatch. rewrite (find_at_start _ _ _ _ _ Hm).
    cbn [fst] in Hlen. intros ->. discriminate.
  - intros H. destruct (hasStatusLine raw) eqn:Hs; [reflexivity|].
    by apply no_status_line_no_match in Hs.
Qed.

(** ** Headers with an empty value *)

(** C3.  On a response whose first header has an empty value, the white
    space the header pattern skips after the colon runs over the line break,
    and the next header line becomes the value: the status line is read as
    the claim says, but the map holds [x-empty] with the text of the
    following line and has no entry for [content-type]. *)
Theorem extractResponseData_empty_header_value :
  let raw := str "HTTP/1.1 200 OK" ++ CRLF
               ++ str "X-Empty: " ++ CRLF
               ++ str "Content-Type: text/html" ++ CRLF
               ++ CRLF in
  extractResponseData raw
  = (str "1.1", 200, {[ str "x-empty" := str "Content-Type: text/html" ]})
  /\ snd (extractResponseData raw) !! str "content-type" = None
  /\ snd (extractResponseData raw) !! str "x-empty" <> Some [].
Proof.
  cbv zeta. split; [|split].
  - vm_compute. reflexivity.
  - vm_compute. reflexivity.
  - vm_compute. discriminate.
Qed.

(** * Further properties *)

(** ** What the header pattern can capture *)

Lemma Forall_forallb (p : ascii -> bool) (s : text) :
  Forall (fun c => p c = true) s -> forallb p s = true.
Proof.
  induction 1 as [|c s Hc _ IH]; [reflexivity|]. cbn. by rewrite Hc.
Qed.

(** A match of the header pattern: a non-empty name of name characters, a
    colon, and a value without line ends. *)
Lemma headerPattern_match_inv (prev : option ascii) (s : text)
    (caps : list text) (rest : text) :
  matchAt headerPattern 2 prev s = Some (caps, rest) ->
  exists whole name value,
    caps = [whole; name; value]
    /\ nonEmptyAll is_name_char name = true
    /\ forallb not_eol value = true
    /\ In ":"%char s.
Proof.
  unfold matchAt, headerPattern. cbn [run]. intros H.
  assert (Hbody : exists k p0, plus is_name_char k p0 s = Some (caps, rest)
            /\ k = (fun (_ : option ascii) (s' : text) =>
                 match s' with
                 | [] => None
                 | x :: t =>
                     if Ascii.eqb x ":"
                     then
                       star is_space
                         (fun (prev0 : option ascii) (s0 : text) =>
                            star not_eol
                              (fun (prev' : option ascii) (s'0 : text) =>
                                 plus is_eol
                                   (fun (_ : option ascii) (s'1 : text) =>
                                      Some
                                        (<[0%nat := take (length s - length s'1) s]>
                                           (<[2%nat := take (length s0 - length s'0) s0]>
                                              (<[1%nat := take (length s - length s') s]>
                                                 (replicate 3 []))),
                                         s'1))
                                   prev' s'0)
                              prev0 s0)
                         (Some x) t
                     else None
                 end)).
  { destruct prev as [p|]; [destruct (Ascii.eqb p LF); [|discriminate]|];
      eexists _, _; (split; [exact H|reflexivity]). }
  clear H. destruct Hbody as (k & p0 & H & ->).
  apply plus_inv in H as (c & xs & r1 & -> & Hc & Hxs & H).
  destruct r1 as [|d r2]; [discriminate|].
  destruct (Ascii.eqb_spec d ":") as [->|]; [|discriminate].
  apply star_inv in H as (ws & r3 & -> & _ & H).
  apply star_inv in H as (vs & r4 & -> & Hvs & H).
  apply plus_inv in H as (e & es & r5 & -> & _ & _ & H).
  rewrite (take_consumed vs), (take_consumed_cons c xs) in H.
  injection H as <- <-.
  eexists _, (c :: xs), vs. split; [reflexivity|].
  split; [by apply nonEmptyAll_cons|]. split; [by apply Forall_forallb|].
  apply in_cons, in_or_app. right. left. reflexivity.
Qed.

(** Every match a search returns is a match of the pattern somewhere. *)
Lemma findAll_Forall (r : regex) (g : nat) (P : list text -> Prop) :
  (forall prev s caps rest, matchAt r g prev s = Some (caps, rest) -> P caps) ->
  forall s skip prev, Forall P (findAll r g skip prev s).
Proof.
  intros HP. induction s as [|c s IH]; intros skip prev.
  - destruct skip; cbn [findAll]; [|constructor].
    destruct (matchAt r g prev []) as [[caps rest]|] eqn:Hm; [|constructor].
    constructor; [eauto|constructor].
  - destruct skip; cbn [findAll]; [|apply IH].
    destruct (matchAt r g prev (c :: s)) as [[caps rest]|] eqn:Hm; [|apply IH].
    constructor; [eauto|apply IH].
Qed.

Lemma lower_name_char (c : ascii) :
  is_name_char c = true -> is_key_char (lower_char c) = true.
Proof. by destruct c as [[] [] [] [] [] [] [] []]. Qed.

Lemma ToLower_name (n : text) :
  nonEmptyAll is_name_char n = true -> nonEmptyAll is_key_char (ToLower n) = true.
Proof.
  intros Hn. apply nonEmptyAll_inv in Hn as (c & t & -> & Hc & Ht).
  cbn [ToLower map]. apply nonEmptyAll_cons; [by apply lower_name_char|].
  induction Ht as [|x t Hx _ IH]; cbn [map]; constructor; auto using lower_name_char.
Qed.

Lemma extractResponseData_headers (raw : text) :
  snd (extractResponseData raw)
  = collectHeaders (FindAllStringSubmatch headerPattern 2 raw).
Proof. unfold extractResponseData. by destruct (_ <? _)%nat. Qed.

(** An entry of the map comes from one of the matches. *)
Lemma collectHeaders_lookup (matches : list (list text)) (k v : text) :
  collectHeaders matches !! k = Some v ->
  exists m, In m matches /\ k = ToLower (nth 1 m []) /\ v = nth 2 m [].
Proof.
  unfold collectHeaders.
  induction matches as [|m matches IH] using rev_ind.
  - cbn. by rewrite lookup_empty.
  - rewrite foldl_app. cbn [foldl]. rewrite lookup_insert.
    case_decide as Hk.
    + intros [= <-]. exists m. split; [apply in_or_app; right; by left|auto].
    + intros Hl. destruct (IH Hl) as (m' & Hin & Hm').
      exists m'. split; [apply in_or_app; by left|exact Hm'].
Qed.

(** X1.  Whatever the raw response is, every key of the header map is a
    non-empty text of the characters [0-9a-z_-], so no key has an
    upper-case letter, and no value contains a carriage return or a line
    feed. *)
Theorem header_map_keys_lower_case_values_single_line (raw k v : text) :
  snd (extractResponseData raw) !! k = Some v ->
  nonEmptyAll is_key_char k = true /\ forallb not_eol v = true.
Proof.
  rewrite extractResponseData_headers. intros Hl.
  apply collectHeaders_lookup in Hl as (m & Hin & -> & ->).
  assert (HF : Forall (fun caps => nonEmptyAll is_name_char (nth 1 caps []) = true
                                   /\ forallb not_eol (nth 2 caps []) = true)
                 (FindAllStringSubmatch headerPattern 2 raw)).
  { apply findAll_Forall. intros prev s caps rest Hm.
    apply headerPattern_match_inv in Hm as (whole & n & x & -> & Hn & Hx & _).
    auto. }
  destruct (proj1 (List.Forall_forall _ _) HF m Hin) as [Hn Hv].
  split; [by apply ToLower_name|exact Hv].
Qed.

(** X1 on a response whose header name is in capitals. *)
Lemma header_map_keys_witness :
  nonEmptyAll is_key_char (str "x-frame-options") = true
  /\ forallb not_eol (str "DENY") = true.
Proof.
  apply (header_map_keys_lower_case_values_single_line
           (str "HTTP/1.1 200 OK" ++ CRLF ++ str "X-FRAME-OPTIONS:   DENY" ++ CRLF)).
  vm_compute. reflexivity.
Defined.

(** ** What the status pattern can capture *)

(** A match of the status pattern: it starts at the beginning of the text,
    and its groups are digits, a dot and digits, and digits. *)
Lemma statusPattern_match_inv (prev : option ascii) (raw : text)
    (caps : list text) (rest : text) :
  matchAt statusPattern 2 prev raw = Some (caps, rest) ->
  exists whole major minor status,
    caps = [whole; major ++ str "." ++ minor; status]
    /\ nonEmptyAll is_digit major = true
    /\ nonEmptyAll is_digit minor = true
    /\ nonEmptyAll is_digit status = true
    /\ In "."%char raw.
Proof.
  unfold matchAt, statusPattern. cbn [run lits str list_ascii_of_string].
  destruct prev; [discriminate|].
  do 5 read_literal raw.
  intros H.
  apply plus_inv in H as (c1 & xs1 & rest1 & -> & Hc1 & Hxs1 & H).
  destruct rest1 as [|d rest1]; [discriminate|].
  destruct (Ascii.eqb_spec d ".") as [->|]; [|discriminate].
  apply plus_inv in H as (c2 & xs2 & rest2 & -> & Hc2 & Hxs2 & H).
  apply plus_inv in H as (w1 & ws1 & rest3 & -> & Hw1 & Hws1 & H).
  apply plus_inv in H as (c3 & xs3 & rest4 & -> & Hc3 & Hxs3 & H).
  apply plus_inv in H as (w2 & ws2 & rest5 & -> & Hw2 & Hws2 & H).
  apply star_inv in H as (ds & rest6 & -> & _ & H).
  rewrite (take_consumed_cons c3 xs3) in H.
  rewrite (take_consumed_eq (c1 :: xs1 ++ "."%char :: c2 :: xs2)
             (c1 :: xs1 ++ "."%char :: c2 :: xs2 ++ w1 :: ws1 ++ c3 :: xs3
                ++ w2 :: ws2 ++ ds ++ rest6)) in H
    by (cbn [app]; by rewrite <- app_assoc).
  injection H as <- <-.
  eexists _, (c1 :: xs1), (c2 :: xs2), (c3 :: xs3).
  split; [reflexivity|].
  repeat (split; [by apply nonEmptyAll_cons|]).
  do 6 right. apply in_or_app. right. left. reflexivity.
Qed.

(** A match found by the leftmost search is a match at some suffix. *)
Lemma find_Some_inv (r : regex) (g : nat) (s : text) (prev : option ascii)
    (m : list text * text) :
  find r g prev s = Some m ->
  exists prev' pre s', s = pre ++ s' /\ matchAt r g prev' s' = Some m.
Proof.
  revert prev. induction s as [|c s IH]; intros prev; cbn [find].
  - destruct (matchAt r g prev []) eqn:Hm; [|discriminate].
    intros [= <-]. exists prev, [], []. auto.
  - destruct (matchAt r g prev (c :: s)) eqn:Hm.
    + intros [= <-]. exists prev, [], (c :: s). auto.
    + intros Hf. destruct (IH _ Hf) as (prev' & pre & s' & -> & Hm').
      exists prev', (c :: pre), s'. auto.
Qed.

Lemma digit_val_nonneg (c : ascii) : is_digit c = true -> 0 <= digit_val c.
Proof.
  unfold is_digit, digit_val. intros H. apply andb_true_iff in H as [H _].
  apply N.leb_le in H. lia.
Qed.

Lemma decimal_from_nonneg (s : text) (acc : Z) :
  0 <= acc -> Forall (fun c => is_digit c = true) s ->
  0 <= fold_left (fun acc c => 10 * acc + digit_val c) s acc.
Proof.
  intros Hacc Hs. revert acc Hacc.
  induction Hs as [|c s Hc _ IH]; intros acc Hacc; cbn [fold_left]; [exact Hacc|].
  apply IH. pose proof (digit_val_nonneg c Hc). lia.
Qed.

Lemma decimal_nonneg (s : text) :
  Forall (fun c => is_digit c = true) s -> 0 <= decimal s.
Proof. apply decimal_from_nonneg. lia. Qed.

(** On digits [Atoi] gives their value, capped at the largest [int]. *)
Lemma Atoi_digits_capped (s : text) :
  nonEmptyAll is_digit s = true -> fst (Atoi s) = Z.min (decimal s) maxInt.
Proof.
  intros Hs. destruct (Z.le_gt_cases (decimal s) maxInt) as [Hle|Hgt].
  - rewrite Atoi_digits by assumption. cbn [fst]. lia.
  - pose proof Hs as Hs'.
    apply nonEmptyAll_inv in Hs' as (c & t & -> & Hc & _).
    unfold nonEmptyAll in Hs. cbn [isEmpty negb andb] in Hs.
    destruct (digit_not_sign c Hc) as [Hminus Hplus].
    unfold Atoi. rewrite Hminus, Hplus, Hs.
    destruct (Z.ltb_spec maxInt (decimal (c :: t))); cbn [fst]; lia.
Qed.

(** X2.  If the text begins with [HTTP/], digits, a dot, digits, white
    space, digits and one more white-space character, then whatever
    follows, the version is the two digit groups around the dot and the
    status code is the value of the third group, capped at the largest
    64-bit integer. *)
Theorem status_line_is_read_whatever_follows
    (major minor sp status : text) (w : ascii) (tail : text) :
  nonEmptyAll is_digit major = true -> nonEmptyAll is_digit minor = true ->
  nonEmptyAll is_space sp = true ->
  nonEmptyAll is_digit status = true -> is_space w = true ->
  fst (extractResponseData
         (str "HTTP/" ++ major ++ str "." ++ minor ++ sp ++ status ++ w :: tail))
  = (major ++ str "." ++ minor, Z.min (decimal status) maxInt).
Proof.
  intros Hmajor Hminor Hsp Hstatus Hw.
  pose proof (statusPattern_line major minor sp status w tail
                Hmajor Hminor Hsp Hstatus Hw) as Hs.
  apply holds_Some in Hs as ([caps rest] & Hm & Hlen & Hv & Hc).
  cbn [fst] in Hlen, Hv, Hc.
  unfold extractResponseData, FindStringSubmatch.
  rewrite (find_at_start _ _ _ _ _ Hm), Hlen, Hv, Hc. cbn [Nat.ltb Nat.leb fst].
  by rewrite Atoi_digits_capped.
Qed.

(** X2 on a status line separated by tabs, with a code beyond 64 bits and
    nothing but a space after it. *)
Lemma status_line_is_read_witness :
  fst (extractResponseData
         (str "HTTP/2.0" ++ [ascii_of_N 9] ++ str "99999999999999999999 "))
  = (str "2.0", 9223372036854775807).
Proof.
  apply (status_line_is_read_whatever_follows
           (str "2") (str "0") [ascii_of_N 9] (str "99999999999999999999")
           " "%char []); reflexivity.
Defined.

(** X3.  Whatever the raw response is, the status code is between 0 and the
    largest 64-bit integer: it is never negative. *)
Theorem status_code_within_int_range (raw : text) :
  0 <= snd (fst (extractResponseData raw)) <= maxInt.
Proof.
  unfold extractResponseData, FindStringSubmatch.
  destruct (find statusPattern 2 None raw) as [[caps rest]|] eqn:Hf.
  - apply find_Some_inv in Hf as (prev & pre & s' & _ & Hm).
    apply statusPattern_match_inv in Hm
      as (whole & major & minor & status & -> & _ & _ & Hstatus & _).
    cbn [length Nat.ltb Nat.leb nth fst snd].
    rewrite (Atoi_digits_capped _ Hstatus).
    apply nonEmptyAll_inv in Hstatus as (c & t & -> & Hc & Ht).
    pose proof (decimal_nonneg (c :: t) ltac:(by constructor)).
    unfold maxInt. lia.
  - cbn. unfold maxInt. lia.
Qed.

(** X4.  The version is non-empty exactly when the text begins with a
    status line, and it is then digits, a dot and digits. *)
Theorem version_present_iff_status_line (raw : text) :
  (hasStatusLine raw = true <-> fst (fst (extractResponseData raw)) <> [])
  /\ (fst (fst (extractResponseData raw)) = []
      \/ exists major minor,
           fst (fst (extractResponseData raw)) = major ++ str "." ++ minor
           /\ nonEmptyAll is_digit major = true
           /\ nonEmptyAll is_digit minor = true).
Proof.
  assert (Hcases :
            (FindStringSubmatch statusPattern 2 raw = []
             /\ fst (fst (extractResponseData raw)) = [])
            \/ (FindStringSubmatch statusPattern 2 raw <> []
                /\ exists major minor,
                     fst (fst (extractResponseData raw)) = major ++ str "." ++ minor
                     /\ nonEmptyAll is_digit major = true
                     /\ nonEmptyAll is_digit minor = true)).
  { unfold extractResponseData, FindStringSubmatch.
    destruct (find statusPattern 2 None raw) as [[caps rest]|] eqn:Hf.
    - right. apply find_Some_inv in Hf as (prev & pre & s' & _ & Hm).
      apply statusPattern_match_inv in Hm
        as (whole & major & minor & status & -> & Hmajor & Hminor & _ & _).
      split; [discriminate|]. exists major, minor. auto.
    - left. auto. }
  split.
  - rewrite statusPattern_recognises.
    destruct Hcases as [[Hnil Hv]|[Hne (major & minor & Hv & Hmajor & _)]].
    + rewrite Hnil, Hv. split; intros H; by contradiction H.
    + split; [|auto]. intros _. rewrite Hv.
      apply nonEmptyAll_inv in Hmajor as (c & t & -> & _). discriminate.
  - destruct Hcases as [[_ Hv]|[_ Hx]]; auto.
Qed.

(** ** Header lines of a well-formed response *)

(** X5.  In a response made of a status line, header lines [name: value]
    ended by CR LF whose values are non-empty and do not begin with white
    space, line ends and a body in which the header pattern finds nothing,
    the map sends the lower-cased name of a header line to its value,
    provided no later line has the same lower-cased name: the last line of
    a name wins. *)
Theorem well_formed_response_last_header_wins
    (major minor status reason : text) (hdrs : list (text * text))
    (eols body : text) (i : nat) (n x : text) :
  nonEmptyAll is_digit major = true -> nonEmptyAll is_digit minor = true ->
  nonEmptyAll is_digit status = true ->
  forallb not_eol reason = true ->
  forallb validHeader hdrs = true ->
  forallb is_eol eols = true -> stopsAt is_eol body = true ->
  findAll headerPattern 2 0 (prevAfter (Some LF) eols) body = [] ->
  hdrs !! i = Some (n, x) ->
  (forall j n' x', (i < j)%nat -> hdrs !! j = Some (n', x') ->
                   ToLower n' <> ToLower n) ->
  snd (extractResponseData
         (statusText major minor status reason
            ++ concat (map headerText hdrs) ++ eols ++ body))
    !! ToLower n = Some x.
Proof.
  intros Hmajor Hminor Hstatus Hreason Hhdrs Heols Hbody Hnone Hi Hlater.
  apply forallb_Forall in Heols. apply stopsAt_stops in Hbody.
  rewrite extractResponseData_headers. unfold FindAllStringSubmatch.
  rewrite findAll_status_line by assumption.
  rewrite collectHeaders_pairs, findAll_header_lines by assumption.
  rewrite Hnone. cbn [map]. rewrite app_nil_r.
  by apply (headerMap_last_wins hdrs i).
Qed.

(** X5 on a response that sets a cookie twice: the second value is kept. *)
Lemma well_formed_response_last_header_wins_witness :
  snd (extractResponseData
         (str "HTTP/1.1 302 Found" ++ CRLF
            ++ str "Set-Cookie: a=1" ++ CRLF
            ++ str "Location: /login" ++ CRLF
            ++ str "SET-COOKIE: a=2" ++ CRLF
            ++ CRLF ++ str "<html/>"))
    !! str "set-cookie" = Some (str "a=2").
Proof.
  apply (well_formed_response_last_header_wins
           (str "1") (str "1") (str "302") (str "Found")
           [(str "Set-Cookie", str "a=1"); (str "Location", str "/login");
            (str "SET-COOKIE", str "a=2")]
           CRLF (str "<html/>") 2 (str "SET-COOKIE") (str "a=2"));
    try reflexivity.
  intros j n' x' Hij Hj. apply lookup_lt_Some in Hj. cbn in Hj. lia.
Defined.

(** ** A response that is already base64 text *)

Lemma findAll_without_colon (s : text) (skip : nat) (prev : option ascii) :
  ~ In ":"%char s -> findAll headerPattern 2 skip prev s = [].
Proof.
  revert skip prev. induction s as [|c s IH]; intros skip prev Hno.
  - destruct skip; cbn [findAll]; [|reflexivity].
    destruct (matchAt headerPattern 2 prev []) as [[caps rest]|] eqn:Hm;
      [|reflexivity].
    apply headerPattern_match_inv in Hm as (_ & _ & _ & _ & _ & _ & Hin).
    contradiction.
  - assert (Hs : ~ In ":"%char s) by (intros H; apply Hno; by right).
    destruct skip; cbn [findAll]; [|by apply IH].
    destruct (matchAt headerPattern 2 prev (c :: s)) as [[caps rest]|] eqn:Hm;
      [|by apply IH].
    apply headerPattern_match_inv in Hm as (_ & _ & _ & _ & _ & _ & Hin).
    contradiction.
Qed.

Lemma find_status_without_dot (s : text) :
  ~ In "."%char s -> FindStringSubmatch statusPattern 2 s = [].
Proof.
  intros Hno. unfold FindStringSubmatch.
  destruct (find statusPattern 2 None s) as [[caps rest]|] eqn:Hf; [|reflexivity].
  apply find_Some_inv in Hf as (prev & pre & s' & -> & Hm).
  apply statusPattern_match_inv in Hm as (_ & _ & _ & _ & _ & _ & _ & _ & Hin).
  exfalso. apply Hno. apply in_or_app. by right.
Qed.

Lemma b64_text_no_colon_no_dot (s : text) :
  Forall (fun c => is_b64_char c = true) s ->
  ~ In ":"%char s /\ ~ In "."%char s.
Proof.
  intros Hs. split; intros Hin;
    apply (proj1 (List.Forall_forall _ _) Hs) in Hin; discriminate.
Qed.

Section RewrittenFacts.
Context {E : Env}.

(** X6.  The normalizer finds nothing in base64 text.  So when [Write] is
    called again on the event a first call has left, and the renderer of
    the first call kept the three fields it was handed, the second call
    hands to its renderer an event whose request is encoded a second time
    and whose response is the rendering of an empty response: the captured
    version, code and headers are lost. *)
Theorem Write_again_loses_the_response
    (w : StandardWriter) (now0 now : Time) (event : ResultEvent) :
  (forall m, rangeHeaders m ≡ₚ map_to_list m) ->
  keepsFields (prepare now0 event) (fst (render w (prepare now0 event))) ->
  let once := eventAfter (Write w now0 event) in
  let w' := writerAfter (Write w now0 event) in
  let handed := prepare now once in
  extractResponseData (ResultEvent.Response once) = ([], 0, ∅)
  /\ ResultEvent.Request handed
     = EncodeToString (EncodeToString (ResultEvent.Request event))
  /\ ResultEvent.Response handed
     = EncodeToString (str "HTTP version: " ++ [LF] ++ str "Status code: 0" ++ [LF])
  /\ eventAfter (Write w' now once) = fst (render w' handed).
Proof.
  intros Hrange (_ & Hkreq & Hkresp) once w' handed.
  assert (Honce : once = fst (render w (prepare now0 event)))
    by apply Write_event.
  destruct (prepare_fields now0 event) as (_ & Hreq1 & Hresp1).
  destruct (prepare_fields now once) as (_ & Hreq2 & Hresp2).
  fold handed in Hreq2, Hresp2.
  rewrite <- Honce in Hkreq, Hkresp. rewrite <- Hkreq in Hreq1.
  rewrite <- Hkresp in Hresp1.
  assert (Hb : Forall (fun c => is_b64_char c = true) (ResultEvent.Response once))
    by (rewrite Hresp1; apply EncodeToString_alphabet).
  destruct (b64_text_no_colon_no_dot _ Hb) as [Hcolon Hdot].
  assert (Hx : extractResponseData (ResultEvent.Response once) = ([], 0, ∅)).
  { unfold extractResponseData, FindAllStringSubmatch.
    rewrite findAll_without_colon, find_status_without_dot by assumption.
    reflexivity. }
  split; [exact Hx|]. split; [by rewrite Hreq2, Hreq1|].
  split; [|apply Write_event].
  rewrite Hresp2, Hx.
  assert (Hnil : rangeHeaders (∅ : gmap text text) = []).
  { apply Permutation_nil_r. rewrite Hrange. by rewrite map_to_list_empty. }
  rewrite Hnil. reflexivity.
Qed.

End RewrittenFacts.

(** X6 on a finding written twice in screen mode. *)
Lemma Write_again_witness :
  ResultEvent.Response
    (prepare (E := Trial.online) 2
       (eventAfter
          (Write (E := Trial.online) (Scenario.writer false None None None) 1
             (Scenario.finding (str "t1") (str "GET /")
                (str "HTTP/1.1 200 OK" ++ CRLF ++ str "Server: x" ++ CRLF)))))
  = str "SFRUUCB2ZXJzaW9uOiAKU3RhdHVzIGNvZGU6IDAK".
Proof.
  destruct (Write_again_loses_the_response (E := Trial.online)
              (Scenario.writer false None None None) 1 2
              (Scenario.finding (str "t1") (str "GET /")
                 (str "HTTP/1.1 200 OK" ++ CRLF ++ str "Server: x" ++ CRLF)))
    as (_ & _ & Hresp & _).
  - intros m. reflexivity.
  - repeat split.
  - rewrite Hresp. reflexivity.
Defined.

(** ** More on [sanitizeFileName] *)

Lemma sanitizeFileName_windows_no_colon (x : text) :
  ~ In ":"%char (sanitizeFileName true x).
Proof.
  intros H. rewrite sanitizeFileName_trim in H.
  apply TrimPrefix_In in H. revert H. apply replaced_no_colon.
Qed.

(** X7.  The output of [sanitizeFileName] has no hyphen and no dot either,
    and on Windows no colon. *)
Theorem sanitizeFileName_has_no_hyphen_dot_colon (isWindows : bool) (x : text) :
  ~ In "-"%char (sanitizeFileName isWindows x)
  /\ ~ In "."%char (sanitizeFileName isWindows x)
  /\ ~ In ":"%char (sanitizeFileName true x).
Proof.
  split; [|split].
  - apply sanitizeFileName_clean. cbn. auto.
  - apply sanitizeFileName_clean. cbn. auto.
  - apply sanitizeFileName_windows_no_colon.
Qed.

Lemma HasPrefix_length (s old : text) :
  HasPrefix s old = true -> (length old <= length s)%nat.
Proof.
  revert s. induction old as [|p old IH]; intros s; cbn [HasPrefix length]; [lia|].
  destruct s as [|c s]; [discriminate|]. intros H.
  apply andb_true_iff in H as [_ H]. apply IH in H. cbn [length]. lia.
Qed.

(** A replacement by a text no longer than the replaced one does not
    lengthen; the characters still to be skipped are dropped. *)
Lemma replaceFrom_length (old new s : text) (skip : nat) :
  (length new <= length old)%nat ->
  (length (replaceFrom old new skip s) + Nat.min skip (length s) <= length s)%nat.
Proof.
  intros Hnew. revert skip. induction s as [|c s IH]; intros skip.
  - cbn. lia.
  - cbn [replaceFrom length]. destruct skip as [|n].
    + destruct (HasPrefix (c :: s) old) eqn:Hp.
      * apply HasPrefix_length in Hp. cbn [length] in Hp.
        specialize (IH (length old - 1)%nat).
        rewrite length_app. lia.
      * specialize (IH 0%nat). cbn [length]. lia.
    + specialize (IH n). lia.
Qed.

Lemma ReplaceAll_length (s old new : text) :
  (length new <= length old)%nat ->
  (length (ReplaceAll s old new) <= length s)%nat.
Proof.
  intros Hnew. pose proof (replaceFrom_length old new s 0 Hnew).
  unfold ReplaceAll. lia.
Qed.

(** Where the replaced text occurs and the replacement is shorter, the
    result is shorter. *)
Lemma ReplaceAll_shorter (s old new : text) :
  (length new < length old)%nat -> occurs old s = true ->
  (length (ReplaceAll s old new) < length s)%nat.
Proof.
  intros Hnew. unfold ReplaceAll. induction s as [|c s IH].
  - cbn [occurs]. rewrite orb_false_r. intros Hp.
    apply HasPrefix_length in Hp. cbn in Hp. lia.
  - cbn [occurs replaceFrom]. destruct (HasPrefix (c :: s) old) eqn:Hp.
    + intros _. apply HasPrefix_length in Hp. cbn [length] in Hp.
      pose proof (replaceFrom_length old new s (length old - 1)
                    ltac:(lia)).
      rewrite length_app. cbn [length]. lia.
    + cbn [orb]. intros Ho. specialize (IH Ho). cbn [length]. lia.
Qed.

Lemma TrimPrefix_length (s prefix : text) :
  (length (TrimPrefix s prefix) <= length s)%nat.
Proof.
  unfold TrimPrefix. destruct (HasPrefix s prefix); [|lia].
  rewrite length_drop. lia.
Qed.

Lemma replaced_length_after_schemes (isWindows : bool) (x : text) :
  (length (replaced isWindows x)
   <= length (ReplaceAll (ReplaceAll x (str "http:") []) (str "https:") []))%nat.
Proof.
  unfold replaced.
  set (r2 := ReplaceAll (ReplaceAll x (str "http:") []) (str "https:") []) in *.
  pose proof (ReplaceAll_length r2 (str "/") (str "_") ltac:(cbn; lia)) as H3.
  set (r3 := ReplaceAll r2 (str "/") (str "_")) in *.
  pose proof (ReplaceAll_length r3 (str "\") (str "_") ltac:(cbn; lia)) as H4.
  set (r4 := ReplaceAll r3 (str "\") (str "_")) in *.
  pose proof (ReplaceAll_length r4 (str "-") (str "_") ltac:(cbn; lia)) as H5.
  set (r5 := ReplaceAll r4 (str "-") (str "_")) in *.
  pose proof (ReplaceAll_length r5 (str ".") (str "_") ltac:(cbn; lia)) as H6.
  set (r6 := ReplaceAll r5 (str ".") (str "_")) in *.
  pose proof (ReplaceAll_length r6 (str ":") (str "_") ltac:(cbn; lia)) as H7.
  destruct isWindows; lia.
Qed.

Lemma replaced_length (isWindows : bool) (x : text) :
  (length (replaced isWindows x) <= length x)%nat.
Proof.
  pose proof (replaced_length_after_schemes isWindows x) as H.
  pose proof (ReplaceAll_length x (str "http:") [] ltac:(cbn; lia)) as H1.
  pose proof (ReplaceAll_length (ReplaceAll x (str "http:") [])
                (str "https:") [] ltac:(cbn; lia)) as H2.
  lia.
Qed.

(** X8.  [sanitizeFileName] never makes a name longer. *)
Theorem sanitizeFileName_never_longer (isWindows : bool) (x : text) :
  (length (sanitizeFileName isWindows x) <= length x)%nat.
Proof.
  rewrite sanitizeFileName_trim.
  pose proof (TrimPrefix_length (replaced isWindows x) (str "__")).
  pose proof (replaced_length isWindows x). lia.
Qed.

Lemma free_sanitized_inv (isWindows : bool) (x : text) :
  free (sanitized isWindows) x = true ->
  occurs (str "http:") x = false /\ occurs (str "https:") x = false
  /\ occurs (str "/") x = false /\ occurs (str "\") x = false
  /\ occurs (str "-") x = false /\ occurs (str ".") x = false
  /\ (isWindows = true -> occurs (str ":") x = false).
Proof.
  unfold free, sanitized. rewrite forallb_app. cbn [forallb].
  intros H. apply andb_true_iff in H as [H Hw].
  repeat (apply andb_true_iff in H as [? H]).
  repeat match goal with
         | Hn : negb _ = true |- _ => apply negb_true_iff in Hn
         end.
  repeat (split; [assumption|]).
  intros ->. cbn [forallb] in Hw. apply andb_true_iff in Hw as [Hw _].
  by apply negb_true_iff in Hw.
Qed.

Lemma occurs_char_In (c : ascii) (s : text) :
  occurs [c] s = true -> In c s.
Proof.
  induction s as [|x s IH]; cbn [occurs HasPrefix]; [discriminate|].
  destruct (Ascii.eqb_spec x c) as [->|Hne]; [by left|].
  cbn [andb orb]. intros H. right. by apply IH.
Qed.

(** X9.  [sanitizeFileName] leaves a name as it is exactly when the name
    contains none of the texts it replaces or removes ([http:], [https:],
    a slash, a backslash, a hyphen, a dot, and on Windows a colon) and does
    not start with two underscores. *)
Theorem sanitizeFileName_fixes_exactly_clean_names (isWindows : bool) (x : text) :
  sanitizeFileName isWindows x = x
  <-> free (sanitized isWindows) x = true /\ HasPrefix x (str "__") = false.
Proof.
  split.
  - intros Hfix.
    assert (Hlen : length (replaced isWindows x) = length x).
    { pose proof (replaced_length isWindows x).
      pose proof (TrimPrefix_length (replaced isWindows x) (str "__")) as Ht.
      rewrite <- sanitizeFileName_trim, Hfix in Ht. lia. }
    assert (Hchars : forall c, In c (str "/\-.") -> occurs [c] x = false).
    { intros c Hc. apply occurs_char. rewrite <- Hfix.
      by apply sanitizeFileName_clean. }
    assert (Hcolon : isWindows = true -> occurs (str ":") x = false).
    { intros ->. apply (occurs_char ":"%char). rewrite <- Hfix.
      apply sanitizeFileName_windows_no_colon. }
    pose proof (replaced_length_after_schemes isWindows x) as Hafter.
    assert (Hhttp : occurs (str "http:") x = false).
    { destruct (occurs (str "http:") x) eqn:Ho; [|reflexivity]. exfalso.
      pose proof (ReplaceAll_shorter x (str "http:") [] ltac:(cbn; lia) Ho) as H1.
      pose proof (ReplaceAll_length (ReplaceAll x (str "http:") [])
                    (str "https:") [] ltac:(cbn; lia)) as H2.
      lia. }
    assert (Hhttps : occurs (str "https:") x = false).
    { destruct (occurs (str "https:") x) eqn:Ho; [|reflexivity]. exfalso.
      assert (R1 : ReplaceAll x (str "http:") [] = x)
        by (by apply replaceFrom_absent).
      rewrite R1 in Hafter.
      pose proof (ReplaceAll_shorter x (str "https:") [] ltac:(cbn; lia) Ho) as H2.
      lia. }
    assert (Hrep : replaced isWindows x = x).
    { apply replaced_fixpoint; auto.
      - intros c Hc Hin. specialize (Hchars c Hc).
        rewrite <- Hfix in Hin. revert Hin. by apply sanitizeFileName_clean.
      - intros -> Hin. rewrite <- Hfix in Hin. revert Hin.
        apply sanitizeFileName_windows_no_colon. }
    split.
    + unfold free, sanitized. rewrite forallb_app. cbn [forallb].
      rewrite Hhttp, Hhttps.
      assert (H1 : occurs (str "/") x = false) by (apply Hchars; cbn; auto).
      assert (H2 : occurs (str "\") x = false) by (apply Hchars; cbn; auto).
      assert (H3 : occurs (str "-") x = false) by (apply Hchars; cbn; auto).
      assert (H4 : occurs (str ".") x = false) by (apply Hchars; cbn; auto).
      rewrite H1, H2, H3, H4.
      cbn [negb andb]. destruct isWindows; [|reflexivity].
      cbn [forallb]. by rewrite Hcolon.
    + destruct (HasPrefix x (str "__")) eqn:Hp; [|reflexivity]. exfalso.
      rewrite sanitizeFileName_trim, Hrep in Hfix. unfold TrimPrefix in Hfix.
      rewrite Hp in Hfix. apply (f_equal length) in Hfix.
      rewrite length_drop in Hfix. apply HasPrefix_length in Hp. cbn in Hp, Hfix. lia.
  - intros [Hfree Hprefix].
    apply free_sanitized_inv in Hfree
      as (Hhttp & Hhttps & Hs & Hb & Hh & Hd & Hc).
    rewrite sanitizeFileName_trim.
    assert (Hrep : replaced isWindows x = x).
    { unfold replaced, ReplaceAll.
      rewrite (replaceFrom_absent (str "http:")) by exact Hhttp.
      rewrite (replaceFrom_absent (str "https:")) by exact Hhttps.
      rewrite (replaceFrom_absent (str "/")) by exact Hs.
      rewrite (replaceFrom_absent (str "\")) by exact Hb.
      rewrite (replaceFrom_absent (str "-")) by exact Hh.
      rewrite (replaceFrom_absent (str ".")) by exact Hd.
      destruct isWindows; [|reflexivity].
      apply replaceFrom_absent. by apply Hc. }
    rewrite Hrep. unfold TrimPrefix. by rewrite Hprefix.
Qed.

(** X9 on a name that is already clean. *)
Lemma sanitizeFileName_fixes_witness :
  sanitizeFileName false (str "example_com_path") = str "example_com_path".
Proof.
  apply (sanitizeFileName_fixes_exactly_clean_names false (str "example_com_path")).
  split; reflexivity.
Defined.

(** ** The decolorizer *)

Lemma decolorizer_starts_with_ESC (prev : option ascii) (c : ascii) (s : text) :
  c <> ESC -> matchAt decolorizerRegex 0 prev (c :: s) = None.
Proof.
  intros Hne. unfold matchAt, decolorizerRegex. cbn [run].
  by destruct (Ascii.eqb_spec c (ascii_of_N 27)).
Qed.

Lemma decolorizer_ignores_prev (p1 p2 : option ascii) (s : text) :
  matchAt decolorizerRegex 0 p1 s = matchAt decolorizerRegex 0 p2 s.
Proof. destruct s; reflexivity. Qed.

Lemma dropAll_ignores_prev (s : text) (skip : nat) (p1 p2 : option ascii) :
  dropAll decolorizerRegex skip p1 s = dropAll decolorizerRegex skip p2 s.
Proof.
  destruct s as [|c s]; [reflexivity|]. cbn [dropAll].
  by rewrite (decolorizer_ignores_prev p1 p2).
Qed.

Lemma dropAll_skip (r : regex) (xs rest : text) (prev : option ascii) :
  dropAll r (length xs) prev (xs ++ rest)
  = match xs, rest with
    | _ :: _, [] => []
    | _, _ => dropAll r 0 (prevAfter prev xs) rest
    end.
Proof.
  revert prev. induction xs as [|x xs IH]; intros prev.
  - cbn. by destruct rest.
  - cbn [length app dropAll]. rewrite IH, prevAfter_cons.
    destruct xs, rest; try reflexivity.
Qed.

Lemma dropAll_step (r : regex) (prev : option ascii) (c : ascii) (t : text) :
  dropAll r 0 prev (c :: t)
  = match matchAt r 0 prev (c :: t) with
    | Some (_, s') =>
        match (length (c :: t) - length s')%nat with
        | O => c :: dropAll r 0 (Some c) t
        | S n => dropAll r n (Some c) t
        end
    | None => c :: dropAll r 0 (Some c) t
    end.
Proof. reflexivity. Qed.

(** A match is dropped and the search goes on after it. *)
Lemma dropAll_match (r : regex) (prev : option ascii) (c : ascii)
    (xs rest : text) (caps : list text) :
  matchAt r 0 prev (c :: xs ++ rest) = Some (caps, rest) ->
  dropAll r 0 prev (c :: xs ++ rest)
  = match xs, rest with
    | _ :: _, [] => []
    | _, _ => dropAll r 0 (prevAfter (Some c) xs) rest
    end.
Proof.
  intros Hm. rewrite dropAll_step, Hm.
  replace (length (c :: xs ++ rest) - length rest)%nat with (S (length xs))
    by (cbn [length]; rewrite length_app; lia).
  apply (dropAll_skip r xs rest (Some c)).
Qed.

Lemma dropAll_nil (r : regex) (skip : nat) (prev : option ascii) :
  dropAll r skip prev [] = [].
Proof. reflexivity. Qed.

Lemma letter_not_param (c : ascii) : is_letter c = true -> is_sgr_param c = false.
Proof. by destruct c as [[] [] [] [] [] [] [] []]. Qed.

(** X10.  [decolorize] only removes bytes: its output is the input with
    some bytes left out, in the same order. *)
Theorem decolorize_only_removes (data : text) : decolorize data `sublist_of` data.
Proof.
  unfold decolorize. generalize 0%nat as skip. generalize (@None ascii) as prev.
  induction data as [|c data IH]; intros prev skip; cbn [dropAll].
  - constructor.
  - destruct skip as [|n]; [|by apply sublist_cons].
    destruct (matchAt decolorizerRegex 0 prev (c :: data)) as [[caps rest]|].
    + destruct (length (c :: data) - length rest)%nat;
        [by apply sublist_skip|by apply sublist_cons].
    + by apply sublist_skip.
Qed.

Section PersistedFacts.
Context {E : Env}.


End PersistedFacts.


(** X12.  [decolorize] keeps text without an escape byte and drops a colour
    sequence that follows it - the escape byte, an opening bracket, digits
    and semicolons, and a letter - and goes on with the rest. *)
Theorem decolorize_drops_colour_sequence (plain params : text) (l : ascii)
    (rest : text) :
  ~ In ESC plain -> forallb is_sgr_param params = true -> is_letter l = true ->
  decolorize (plain ++ [ESC; "["%char] ++ params ++ l :: rest)
  = plain ++ decolorize rest.
Proof.
  intros Hplain Hparams Hl. apply forallb_Forall in Hparams.
  unfold decolorize. generalize (@None ascii) at 1 as prev.
  induction plain as [|c plain IH]; intros prev.
  - cbn [app].
    replace (ESC :: "["%char :: params ++ l :: rest)
      with (ESC :: ("["%char :: params ++ [l]) ++ rest)
      by (cbn [app]; by rewrite <- app_assoc).
    assert (Hm : matchAt decolorizerRegex 0 prev
                   (ESC :: ("["%char :: params ++ [l]) ++ rest)
                 = Some ([ESC :: "["%char :: params ++ [l]], rest)).
    { unfold matchAt, decolorizerRegex. cbn [run app]. unfold ESC.
      rewrite Ascii.eqb_refl. cbn [Ascii.eqb Bool.eqb].
      rewrite <- app_assoc. cbn [app].
      apply star_greedy; [exact Hparams|by apply letter_not_param|].
      rewrite Hl. do 2 f_equal. cbn [replicate].
      rewrite (take_consumed_eq (ascii_of_N 27 :: "["%char :: params ++ [l]));
        [reflexivity|].
      cbn [app]. by rewrite <- app_assoc. }
    rewrite (dropAll_match _ _ _ _ _ _ Hm).
    destruct rest; [reflexivity|]. apply dropAll_ignores_prev.
  - cbn [app]. rewrite dropAll_step, decolorizer_starts_with_ESC.
    + f_equal. apply IH. intros H. apply Hplain. by right.
    + intros ->. apply Hplain. by left.
Qed.

(** X12 on a red word. *)
Lemma decolorize_drops_colour_sequence_witness :
  decolorize (str "[" ++ [ESC; "["%char] ++ str "1;31" ++ "m"%char :: str "high]")
  = str "[" ++ decolorize (str "high]").
Proof.
  apply decolorize_drops_colour_sequence.
  - cbn. intuition discriminate.
  - reflexivity.
  - reflexivity.
Defined.

(** ** Effects of [Write] *)

Section WriteEffects.
Context {E : Env}.

(** X13.  The effects of [Write] are either none, or one lock, what happens
    under it, and one unlock at the very end: the mutex is released on
    every path, the panic included, and is never taken twice. *)
Theorem Write_releases_the_lock_it_takes
    (w : StandardWriter) (now : Time) (event : ResultEvent) :
  effectsOf (Write w now event) = []
  \/ exists inside,
       effectsOf (Write w now event) = Lock :: inside ++ [Unlock]
       /\ Forall (fun e => e <> Lock /\ e <> Unlock) inside.
Proof.
  destruct (Write_cases w now event) as [(e' & r & ->)|(e' & data & _ & _ & ->)].
  - left. reflexivity.
  - right.
    destruct (deliver_cases w e' data)
      as (log0 & [[_ ->]|[(resp & log1 & _ & _ & ->)
                         |(resp & log1 & f & r & _ & _ & ->)]]);
      cbn [effectsOf fst snd].
    + eexists [_; _]. split; [reflexivity|].
      repeat constructor; discriminate.
    + eexists [_; _; _]. split; [reflexivity|].
      repeat constructor; discriminate.
    + eexists [_; _; _; _]. split; [reflexivity|].
      repeat constructor; discriminate.
Qed.

(** X14.  A finding reaches the output file only after its alert was sent
    and answered: if [Write] writes to a sink, the sink is the configured
    output file, the bytes are the rendering (decolorized in screen mode),
    the POST comes before the write in the trace, its response was not nil,
    and the call returns.  So a call that panics has written nothing. *)
Theorem Write_persists_only_after_answered_alert
    (w : StandardWriter) (now : Time) (event : ResultEvent) (f : Sink) (d : text) :
  In (SinkWrite f d) (effectsOf (Write w now event)) ->
  StandardWriter.outputFile w = Some f
  /\ (exists data log0 log1,
         d = persisted w data
         /\ snd (render w (prepare now event)) = (data, None)
         /\ is_Some (fst (transport (alertPost (asAlert w) data)))
         /\ effectsOf (Write w now event)
            = [Lock; Log log0; Send (alertPost (asAlert w) data); Log log1;
               SinkWrite f d; Unlock])
  /\ exists r, resultOf (Write w now event) = Returns r.
Proof.
  destruct (Write_cases w now event) as [(e' & r & ->)|(e' & data & Hr & _ & ->)].
  - intros [].
  - destruct (deliver_cases w e' data)
      as (log0 & [[_ ->]|[(resp & log1 & _ & _ & ->)
                         |(resp & log1 & f' & r & Ht & Hf & ->)]]);
      cbn [effectsOf resultOf fst snd]; intros Hin.
    + cbn in Hin. intuition discriminate.
    + cbn in Hin. intuition discriminate.
    + assert (Heq : SinkWrite f' (persisted w data) = SinkWrite f d)
        by (cbn in Hin; intuition discriminate).
      injection Heq as -> <-.
      split; [exact Hf|]. split; [|eauto].
      exists data, log0, log1. rewrite Hr, Ht. cbn [snd]. eauto.
Qed.

End WriteEffects.

(** X14 on a finding written in JSON mode with a working disk. *)
Lemma Write_persists_witness :
  StandardWriter.outputFile (Scenario.writer true (Some (FileHandle 1)) None None)
  = Some (FileHandle 1).
Proof.
  apply (Write_persists_only_after_answered_alert (E := Trial.online)
           (Scenario.writer true (Some (FileHandle 1)) None None) 42
           (Scenario.finding (str "t1") (str "GET /") (str "HTTP/1.1 200 OK"))
           (FileHandle 1)
           (Scenario.jsonOf
              (Scenario.finding (str "t1") (str "GET /") (str "HTTP/1.1 200 OK")))).
  vm_compute. auto 10.
Defined.

(** ** [sendStatusChangeRequest] *)

Section StatusFacts.
Context {E : Env}.


(** The four ways the function ends. *)
Lemma sendStatusChangeRequest_cases (w : StandardWriter) (action : text) :
  let patch := statusPatch w action in
  let post := lifecyclePost w action in
  let w' := withEvent (fst (lifecycleEvent action)) w in
  exists log0,
    (parseURL (statusURL w) = false
     /\ sendStatusChangeRequest w action = (w, [Log log0], Panics nilDereference))
    \/ (parseURL (statusURL w) = true
        /\ fst (transport patch) = None
        /\ sendStatusChangeRequest w action
           = (w, [Log log0; Send patch], Panics nilDereference))
    \/ (exists log1 log2,
          parseURL (statusURL w) = true
          /\ is_Some (fst (transport patch))
          /\ fst (transport post) = None
          /\ sendStatusChangeRequest w action
             = (w', [Log log0; Send patch; Log log1; Log log2; Send post],
                Panics nilDereference))
    \/ (exists log1 log2 log3,
          parseURL (statusURL w) = true
          /\ is_Some (fst (transport patch))
          /\ is_Some (fst (transport post))
          /\ sendStatusChangeRequest w action
             = (w', [Log log0; Send patch; Log log1; Log log2; Send post; Log log3],
                Returns tt)).
Proof.
  intros patch post w'. subst patch post w'.
  unfold sendStatusChangeRequest, NewRequest, statusPatch, lifecyclePost.
  fold (statusURL w). eexists.
  destruct (parseURL (statusURL w)); [|left; eauto].
  right. unfold setContentType. cbn [HttpRequest.Method HttpRequest.URL HttpRequest.Body].
  destruct (fst (transport _)) as [resp|] eqn:Hpatch; [|left; eauto].
  right.
  destruct (lifecycleEvent action) as [ev context]. cbn [fst snd].
  replace (StandardWriter.AstraMeta
             (StandardWriter.withAstraMeta
                (AstraMeta.withEvent ev (StandardWriter.AstraMeta w)) w))
    with (AstraMeta.withEvent ev (StandardWriter.AstraMeta w)) by reflexivity.
  replace (StandardWriter.AstraWebhook
             (StandardWriter.withAstraMeta
                (AstraMeta.withEvent ev (StandardWriter.AstraMeta w)) w))
    with (StandardWriter.AstraWebhook w) by reflexivity.
  destruct (fst (transport (HttpRequest.mk (str "POST") _ _ _))) as [resp'|] eqn:Hpost.
  - right. eexists _, _, _. repeat split; eauto.
  - left. eexists _, _. repeat split; eauto.
Qed.

(** X15.  [sendStatusChangeRequest] sends at most two requests, the PATCH to
    the status URL first and the POST to the webhook second: nothing when
    the status URL does not parse, the PATCH alone when it gets no response,
    both otherwise. *)
Theorem sendStatusChangeRequest_sends_patch_then_post
    (w : StandardWriter) (action : text) :
  filter isSend (effectsOf (sendStatusChangeRequest w action))
  = if parseURL (statusURL w)
    then Send (statusPatch w action)
           :: (if isNil (fst (transport (statusPatch w action)))
               then [] else [Send (lifecyclePost w action)])
    else [].
Proof.
  destruct (sendStatusChangeRequest_cases w action)
    as (log0 & [(Hu & ->)|[(Hu & Hp & ->)|[(l1 & l2 & Hu & [r Hp] & Hq & ->)
                                          |(l1 & l2 & l3 & Hu & [r Hp] & Hq & ->)]]]);
    cbn [effectsOf fst snd]; rewrite Hu; try rewrite Hp; reflexivity.
Qed.

(** X16.  [sendStatusChangeRequest] returns exactly when the status URL
    parses and both requests get a response; in every other case it panics
    on a nil dereference.  The writer's event is rewritten as soon as the
    PATCH is answered, whether the call then returns or panics, and nothing
    else of the writer changes. *)
Theorem sendStatusChangeRequest_returns_iff_both_answered
    (w : StandardWriter) (action : text) :
  let answered :=
    parseURL (statusURL w) = true
    /\ is_Some (fst (transport (statusPatch w action)))
    /\ is_Some (fst (transport (lifecyclePost w action))) in
  (resultOf (sendStatusChangeRequest w action) = Returns tt <-> answered)
  /\ (~ answered ->
      resultOf (sendStatusChangeRequest w action) = Panics nilDereference)
  /\ fst (fst (sendStatusChangeRequest w action))
     = if parseURL (statusURL w) && negb (isNil (fst (transport (statusPatch w action))))
       then withEvent (fst (lifecycleEvent action)) w
       else w.
Proof.
  cbn zeta.
  destruct (sendStatusChangeRequest_cases w action)
    as (log0 & [(Hu & ->)|[(Hu & Hp & ->)|[(l1 & l2 & Hu & [r Hp] & Hq & ->)
                                          |(l1 & l2 & l3 & Hu & [r Hp] & [r' Hq] & ->)]]]);
    cbn [resultOf fst snd]; rewrite Hu; try rewrite Hp; try rewrite Hq;
    cbn [isNil negb andb].
  - repeat split; try reflexivity; try discriminate. intros (? & _). discriminate.
  - repeat split; try reflexivity; try discriminate.
    intros (_ & [? ?] & _). discriminate.
  - repeat split; try reflexivity; try discriminate.
    intros (_ & _ & [? ?]). discriminate.
  - repeat split; eauto. intros Hn. exfalso. apply Hn. repeat split; eauto.
Qed.

(** X17.  Every action other than ["RUNNING"] is announced as a completed
    scan: the status body carries the action itself and no [pid], the
    webhook event is ["scan.complete"].  For ["RUNNING"] the body carries
    [pid] 15 and the event is ["scan.started"]. *)
Theorem lifecycle_event_follows_action (action : text) :
  statusRequest action !! str "status" = Some action
  /\ (statusRequest action !! str "pid"
      = if decide (action = str "RUNNING") then Some (str "15") else None)
  /\ (forall k, is_Some (statusRequest action !! k) ->
        k = str "status" \/ k = str "pid")
  /\ fst (lifecycleEvent action)
     = if decide (action = str "RUNNING")
       then str "scan.started" else str "scan.complete".
Proof.
  unfold statusRequest, lifecycleEvent.
  destruct (decide (action = str "RUNNING")) as [Heq|Hne];
    (split; [|split; [|split; [|reflexivity]]]).
  - rewrite lookup_insert_ne by discriminate. apply lookup_singleton_eq.
  - apply lookup_insert_eq.
  - intros k [v Hk].
    destruct (decide (k = str "pid")) as [->|Hpid]; [auto|].
    rewrite lookup_insert_ne in Hk by congruence.
    apply lookup_singleton_Some in Hk as [<- _]. auto.
  - apply lookup_singleton_eq.
  - apply lookup_singleton_ne. discriminate.
  - intros k [v Hk]. apply lookup_singleton_Some in Hk as [<- _]. auto.
Qed.

(** X18.  [Write] changes nothing of the writer but its event: the writer
    is left as it was when nothing was rendered, and carries the event
    ["alert"] otherwise, also when the call panics. *)
Theorem Write_changes_only_the_event
    (w : StandardWriter) (now : Time) (event : ResultEvent) :
  writerAfter (Write w now event)
  = if isNil (snd (snd (render w (prepare now event))))
       && negb (isEmpty (fst (snd (render w (prepare now event)))))
    then withEvent (str "alert") w
    else w.
Proof.
  destruct (Write_cases w now event) as [(e' & r & Hw)|(e' & data & Hr & Hne & Hw)].
  - rewrite Hw. cbn [writerAfter fst].
    revert Hw. unfold Write.
    destruct (render w (prepare now event)) as [ev [data [err|]]]; cbn [fst snd isNil andb];
      [reflexivity|].
    destruct data as [|c data]; [reflexivity|].
    cbn [length Nat.eqb]. unfold deliver.
    destruct (transport _) as [[resp|] err]; [|discriminate].
    destruct (StandardWriter.outputFile _); [|discriminate].
    destruct (sinkWrite _ _); discriminate.
  - rewrite Hw, Hr. cbn [fst snd isNil andb].
    destruct data as [|c data]; [contradiction|]. cbn [isEmpty negb].
    destruct (deliver_cases w e' (c :: data))
      as (log0 & [[_ ->]|[(resp & log1 & _ & _ & ->)
                         |(resp & log1 & f & r & _ & _ & ->)]]);
      reflexivity.
Qed.

End StatusFacts.

(** X16 when the network is down: the call panics. *)
Lemma sendStatusChangeRequest_returns_iff_witness :
  resultOf (sendStatusChangeRequest (E := Trial.offline)
              (Scenario.writer true None None None) (str "COMPLETE"))
  = Panics nilDereference.
Proof.
  apply (proj1 (proj2 (sendStatusChangeRequest_returns_iff_both_answered
                         (E := Trial.offline)
                         (Scenario.writer true None None None) (str "COMPLETE")))).
  vm_compute. intros (_ & [r Hr] & _). discriminate.
Defined.

(** X17 on the key [pid] of a ["RUNNING"] request. *)
Lemma lifecycle_event_follows_action_witness :
  str "pid" = str "status" \/ str "pid" = str "pid".
Proof.
  apply (proj1 (proj2 (proj2 (lifecycle_event_follows_action (str "RUNNING"))))
           (str "pid")).
  exists (str "15"). vm_compute. reflexivity.
Defined.

(** ** [NewStandardWriter], when it gets as far as the status request *)

Section ConstructorReturns.
Context {E : Env}.

Lemma openSink_none_iff (path : text) (resume : bool) (o : option Sink) :
  openSink path resume = inl o -> (o = None <-> path = []).
Proof.
  unfold openSink. destruct path as [|c path]; cbn [isEmpty].
  - intros [= <-]. tauto.
  - destruct (newFileOutputWriter _ _); intros [= <-]. split; discriminate.
Qed.

(** X19.  What [NewStandardWriter] returns is a nil writer with an error, or
    a writer with a nil error.  The writer it returns carries the event
    ["scan.started"] and the host name ["k8s"], has a sink exactly for
    each path that is set, takes its webhook, service name and scan id from
    the process environment, and was announced by the PATCH and the POST of
    the action ["RUNNING"], both answered.  An error comes with no request
    sent. *)
Theorem NewStandardWriter_returns_error_or_announced_writer
    (options : Options) (o : option StandardWriter) (e : option error) :
  resultOf (NewStandardWriter options) = Returns (o, e) ->
  (o = None /\ is_Some e /\ fst (NewStandardWriter options) = [])
  \/ (e = None
      /\ exists w,
           o = Some w
           /\ AstraMeta.Event (StandardWriter.AstraMeta w) = str "scan.started"
           /\ AstraMeta.Hostname (StandardWriter.AstraMeta w) = str "k8s"
           /\ (StandardWriter.outputFile w = None <-> Options.Output options = [])
           /\ (StandardWriter.traceFile w = None <-> Options.TraceLogFile options = [])
           /\ (StandardWriter.errorFile w = None <-> Options.ErrorLogFile options = [])
           /\ LookupEnv (str "webhookUrl") = Some (StandardWriter.AstraWebhook w)
           /\ LookupEnv (str "DAST_API_SVC_NAME")
              = Some (StandardWriter.AstraApiServiceName w)
           /\ LookupEnv (str "scanId")
              = Some (AstraMeta.ScanId (StandardWriter.AstraMeta w))
           /\ filter isSend (fst (NewStandardWriter options))
              = [Send (statusPatch w (str "RUNNING"));
                 Send (lifecyclePost w (str "RUNNING"))]
           /\ is_Some (fst (transport (statusPatch w (str "RUNNING"))))
           /\ is_Some (fst (transport (lifecyclePost w (str "RUNNING"))))).
Proof.
  unfold NewStandardWriter, resultOf.
  destruct (openSink (Options.Output options) _) as [o1|e1] eqn:H1;
    [|cbn; intros [= <- <-]; left; eauto].
  destruct (openSink (Options.TraceLogFile options) _) as [o2|e2] eqn:H2;
    [|cbn; intros [= <- <-]; left; eauto].
  destruct (openSink (Options.ErrorLogFile options) _) as [o3|e3] eqn:H3;
    [|cbn; intros [= <- <-]; left; eauto].
  destruct (if _ && _ then _ else _); [discriminate|].
  destruct (LookupEnv (str "auditId")) eqn:E1; [|discriminate].
  destruct (LookupEnv (str "jobId")) eqn:E2; [|discriminate].
  destruct (LookupEnv (str "scanId")) eqn:E3; [|discriminate].
  destruct (LookupEnv (str "webhookToken")) eqn:E4; [|discriminate].
  destruct (LookupEnv (str "webhookUrl")) eqn:E5; [|discriminate].
  destruct (LookupEnv (str "DAST_API_SVC_NAME")) eqn:E6; [|discriminate].
  apply openSink_none_iff in H1, H2, H3.
  match goal with
  | |- context [sendStatusChangeRequest ?w ?a] =>
      destruct (sendStatusChangeRequest_cases w a)
        as (log0 & [(Hu & ->)|[(Hu & Hp & ->)
                              |[(lg1 & lg2 & Hu & Hp & Hq & ->)
                               |(lg1 & lg2 & lg3 & Hu & Hp & Hq & ->)]]])
  end; cbn [fst snd]; try discriminate.
  intros [= <- <-]. right. split; [reflexivity|].
  eexists. split; [reflexivity|].
  repeat (split; [first [reflexivity | assumption]|]).
  exact Hq.
Qed.

(** X20.  With every sink opened, the directory in place and the six
    variables set, a status service that gives no response makes the
    constructor panic on a nil dereference: it returns neither a writer nor
    an error. *)
Theorem NewStandardWriter_panics_without_status_service (options : Options) :
  sinksOpen options ->
  directoryReady options ->
  Forall (fun name => is_Some (LookupEnv name)) requiredEnv ->
  (forall req, fst (transport req) = None) ->
  resultOf (NewStandardWriter options) = Panics nilDereference.
Proof.
  intros Hsinks Hdir Henv Hdown.
  unfold NewStandardWriter, resultOf.
  destruct (Hsinks (Options.Output options)) as [o1 Ho1]; [cbn; auto|rewrite Ho1].
  destruct (Hsinks (Options.TraceLogFile options)) as [o2 Ho2]; [cbn; auto|rewrite Ho2].
  destruct (Hsinks (Options.ErrorLogFile options)) as [o3 Ho3]; [cbn; auto|rewrite Ho3].
  assert (Hstep : (if Options.StoreResponse options
                      && negb (FolderExists (Options.StoreResponseDir options))
                   then CreateFolder (Options.StoreResponseDir options)
                   else None) = None).
  { destruct Hdir as [-> | [-> | ->]]; [reflexivity| |].
    - by rewrite andb_false_r.
    - by destruct (_ && _). }
  rewrite Hstep.
  unfold requiredEnv in Henv.
  repeat match goal with
         | H : Forall _ (_ :: _) |- _ =>
             apply Forall_cons in H as [[? ->] H]
         end.
  match goal with
  | |- context [sendStatusChangeRequest ?w ?a] =>
      destruct (sendStatusChangeRequest_cases w a)
        as (log0 & [(Hu & ->)|[(Hu & Hp & ->)
                              |[(lg1 & lg2 & Hu & [r Hp] & Hq & ->)
                               |(lg1 & lg2 & lg3 & Hu & [r Hp] & Hq & ->)]]])
  end; cbn [fst snd]; try reflexivity.
  rewrite Hdown in Hp. discriminate.
Qed.

End ConstructorReturns.

(** X19 on a run with an output file and a working network. *)
Lemma NewStandardWriter_returns_witness :
  exists w,
    resultOf (NewStandardWriter (E := Trial.online)
                (Scenario.options (str "out.txt") [] [] false))
    = Returns (Some w, None)
    /\ AstraMeta.Event (StandardWriter.AstraMeta w) = str "scan.started"
    /\ StandardWriter.traceFile w = None.
Proof.
  destruct (NewStandardWriter_returns_error_or_announced_writer
              (E := Trial.online)
              (Scenario.options (str "out.txt") [] [] false)
              (Some (withEvent (str "scan.started")
                       (StandardWriter.mk true false false false false
                          (AstraMeta.mk (str "alert") (str "x") (str "x") (str "x")
                             (str "x") (str "k8s"))
                          (str "x") (str "x") true (Some (FileHandle 7)) None None
                          false (str "/tmp/responses"))))
              None)
    as [(Hnil & _)|(_ & w & Hw & Hev & _ & _ & Htrace & _)].
  - vm_compute. reflexivity.
  - discriminate.
  - exists w. split; [|split].
    + rewrite <- Hw. vm_compute. reflexivity.
    + exact Hev.
    + apply Htrace. reflexivity.
Defined.

(** X20 with the network down. *)
Lemma NewStandardWriter_panics_witness :
  resultOf (NewStandardWriter (E := Trial.offline)
              (Scenario.options (str "out.txt") [] [] false))
  = Panics nilDereference.
Proof.
  apply (NewStandardWriter_panics_without_status_service (E := Trial.offline)).
  - intros path _. unfold openSink. destruct (isEmpty path); eexists; reflexivity.
  - left. reflexivity.
  - repeat constructor; eexists; reflexivity.
  - intros req. reflexivity.
Defined.

(** ** [Close] *)

Section CloseFacts.
Context {E : Env} {H : Host}.

(** X21.  [Close] closes the sinks only when the completion was announced
    and answered: when it returns, its last steps are the closing of every
    open sink, output, trace and error in this order, each once; when the
    announcement panics, no sink is closed. *)
Theorem Close_closes_sinks_only_after_announcement (w : StandardWriter) :
  exists before,
    snd (fst (Close w))
    = map Core before
        ++ match resultOf (Close w) with
           | Returns _ => map CloseSink (openSinks w)
           | _ => []
           end
    /\ filter isSend before
       = filter isSend (effectsOf (sendStatusChangeRequest w (str "COMPLETE")))
    /\ (resultOf (Close w) = Returns tt
        <-> resultOf (sendStatusChangeRequest w (str "COMPLETE")) = Returns tt).
Proof.
  unfold Close.
  destruct (sendStatusChangeRequest_cases w (str "COMPLETE"))
    as (log0 & [(Hu & ->)|[(Hu & Hp & ->)
                          |[(lg1 & lg2 & Hu & Hp & Hq & ->)
                           |(lg1 & lg2 & lg3 & Hu & Hp & Hq & ->)]]]);
    cbn [resultOf effectsOf fst snd]; eexists.
  - split; [symmetry; apply app_nil_r|]. split; [reflexivity|]. split; discriminate.
  - split; [symmetry; apply app_nil_r|]. split; [reflexivity|]. split; discriminate.
  - split; [symmetry; apply app_nil_r|]. split; [reflexivity|]. split; discriminate.
  - split; [reflexivity|]. split; [reflexivity|]. split; reflexivity.
Qed.



End CloseFacts.

(** ** [WriteFailure] *)

Section FailureFacts.
Context {E : Env} {H : Host}.

(** X23.  With matcher status off, [WriteFailure] does nothing and returns
    nil whatever the event holds.  With it on, a [template-info] that is not
    a [model.Info] makes the call panic on the type assertion, before
    anything is rendered, sent or written. *)
Theorem WriteFailure_guard_then_type_assertion
    (w : StandardWriter) (now0 now : Time) (event : InternalEvent) :
  (StandardWriter.matcherStatus w = false ->
   WriteFailure w now0 now event = (w, None, [], Returns None))
  /\ (forall v,
        StandardWriter.matcherStatus w = true ->
        event !! str "template-info" = Some v ->
        (forall info, v <> InfoValue info) ->
        exists msg,
          WriteFailure w now0 now event = (w, None, [], Panics msg)).
Proof.
  unfold WriteFailure. split.
  - intros ->. reflexivity.
  - intros v -> -> Hv. cbn [negb].
    destruct v as [info|dynamicType v|s]; [by destruct (Hv info)|eauto..].
Qed.

(** X24.  With matcher status on and a well-typed event, [WriteFailure] is
    [Write] on an event that has the five texts of the internal event, no
    request and no response.  The renderer therefore gets an empty request,
    the base64 text of the two-line preamble with an empty version and the
    code 0, a false matcher status, and the clock of [Write] rather than
    the one read when the event was built. *)
Theorem WriteFailure_renders_an_empty_exchange
    (w : StandardWriter) (now0 now : Time) (event : InternalEvent) :
  StandardWriter.matcherStatus w = true ->
  (forall v, event !! str "template-info" = Some v -> exists info, v = InfoValue info) ->
  rangeHeaders ∅ = [] ->
  exists info,
    WriteFailure w now0 now event
    = (let '(w', e', effects, r) := Write w now (failureEvent event info now0) in
       (w', Some e', effects, r))
    /\ (let handed := prepare now (failureEvent event info now0) in
        ResultEvent.Request handed = []
        /\ ResultEvent.Response handed
           = EncodeToString (preamble [] 0)
        /\ ResultEvent.Timestamp handed = now
        /\ ResultEvent.MatcherStatus handed = false
        /\ ResultEvent.Host handed = ToString (event !! str "host")
        /\ ResultEvent.TemplateID handed = ToString (event !! str "template-id")).
Proof.
  intros Hms Hinfo Hrange. unfold WriteFailure. rewrite Hms. cbn [negb].
  assert (Hhanded : forall info,
    let handed := prepare now (failureEvent event info now0) in
    ResultEvent.Request handed = []
    /\ ResultEvent.Response handed = EncodeToString (preamble [] 0)
    /\ ResultEvent.Timestamp handed = now
    /\ ResultEvent.MatcherStatus handed = false
    /\ ResultEvent.Host handed = ToString (event !! str "host")
    /\ ResultEvent.TemplateID handed = ToString (event !! str "template-id")).
  { intros info. unfold failureEvent, prepare.
    destruct (TemplatePathURL (ToString (event !! str "template-path")))
      as [templatePath templateURL].
    cbn [ResultEvent.TemplatePath].
    destruct (isEmpty (ToString (event !! str "template-path")));
      [|destruct (TemplatePathURL _)];
      cbn [ResultEvent.withTemplate ResultEvent.withTimestamp ResultEvent.Response];
      change (extractResponseData []) with ([] : text, 0, (∅ : gmap text text));
      cbv zeta beta iota; rewrite Hrange; repeat split. }
  destruct (event !! str "template-info") as [v|] eqn:Hv.
  - destruct (Hinfo v eq_refl) as [info ->]. exists info. split; [reflexivity|].
    apply Hhanded.
  - exists zeroInfo. split; [reflexivity|]. apply Hhanded.
Qed.

End FailureFacts.

(** X23 on an event whose [template-info] is a string. *)
Lemma WriteFailure_guard_witness :
  WriteFailure (E := Trial.online) (H := Trial.host)
    (Scenario.writer true None None None) 1 2
    (Trial.failed (Some (StringValue (str "info"))))
  = (Scenario.writer true None None None, None, [], Returns None)
  /\ exists msg,
       WriteFailure (E := Trial.online) (H := Trial.host)
         (Trial.reporter None None None) 1 2
         (Trial.failed (Some (StringValue (str "info"))))
       = (Trial.reporter None None None, None, [], Panics msg).
Proof.
  split.
  - apply (proj1 (WriteFailure_guard_then_type_assertion
                    (E := Trial.online) (H := Trial.host)
                    (Scenario.writer true None None None) 1 2
                    (Trial.failed (Some (StringValue (str "info")))))).
    reflexivity.
  - apply (proj2 (WriteFailure_guard_then_type_assertion
                    (E := Trial.online) (H := Trial.host)
                    (Trial.reporter None None None) 1 2
                    (Trial.failed (Some (StringValue (str "info")))))
             (StringValue (str "info"))).
    + reflexivity.
    + vm_compute. reflexivity.
    + discriminate.
Defined.

(** X24 on an event without [template-info]. *)
Lemma WriteFailure_renders_witness :
  exists info,
    ResultEvent.Response
      (prepare (E := Trial.online) 2
         (failureEvent (E := Trial.online) (H := Trial.host)
            (Trial.failed None) info 1))
    = str "SFRUUCB2ZXJzaW9uOiAKU3RhdHVzIGNvZGU6IDAK".
Proof.
  destruct (WriteFailure_renders_an_empty_exchange
              (E := Trial.online) (H := Trial.host)
              (Trial.reporter None None None) 1 2 (Trial.failed None))
    as (info & _ & _ & Hresp & _).
  - reflexivity.
  - intros v Hv. vm_compute in Hv. discriminate.
  - vm_compute. reflexivity.
  - exists info. rewrite Hresp. vm_compute. reflexivity.
Defined.

(** ** [WriteStoreDebugData] *)

Section DebugDataFacts.
Context {E : Env} {H : Host}.

(** X25.  The only file [WriteStoreDebugData] opens lies two levels below
    the store-response directory: a folder named after the event type and a
    file named after host and template id with the suffix [.txt], both
    names free of slash, backslash, hyphen and dot.  It opens nothing when
    responses are not stored. *)
Theorem WriteStoreDebugData_opens_a_sanitized_path
    (w : StandardWriter) (host templateID eventType data path : text) :
  In (OpenAppend path) (WriteStoreDebugData w host templateID eventType data) ->
  StandardWriter.storeResponse w = true
  /\ exists folder name,
       path = Join (Join (StandardWriter.storeResponseDir w) folder)
                (name ++ str ".txt")
       /\ folder = sanitizeFileName IsWindows eventType
       /\ name = sanitizeFileName IsWindows (host ++ str "_" ++ templateID)
       /\ (forall c, In c (str "/\-.") -> ~ In c folder /\ ~ In c name).
Proof.
  unfold WriteStoreDebugData.
  destruct (StandardWriter.storeResponse w); [|intros []].
  intros Hin. split; [reflexivity|].
  exists (sanitizeFileName IsWindows eventType),
         (sanitizeFileName IsWindows (host ++ str "_" ++ templateID)).
  split; [|split; [reflexivity|split; [reflexivity|]]].
  - assert (Hopen : In (OpenAppend path)
                      (if FolderExists
                            (Join (StandardWriter.storeResponseDir w)
                               (sanitizeFileName IsWindows eventType))
                       then [] else
                         [MakeFolder
                            (Join (StandardWriter.storeResponseDir w)
                               (sanitizeFileName IsWindows eventType))]) -> False).
    { destruct (FolderExists _); cbn [In]; [intros []|].
      intros [Heq|[]]. discriminate. }
    destruct (OpenFile _) as [f|err];
      apply in_app_or in Hin as [Hin|Hin];
      try (by destruct (Hopen Hin));
      cbn [In] in Hin.
    + destruct Hin as [[= <-]|[Heq|[Heq|[]]]]; [reflexivity|discriminate..].
    + destruct Hin as [[= <-]|[Heq|[]]]; [reflexivity|discriminate].
  - intros c Hc. split; by apply sanitizeFileName_clean.
Qed.

(** X26.  What [WriteStoreDebugData] writes is the data followed by one
    line feed, to the file it has just opened, and closing that file is
    the last thing it does.  When the file cannot be opened it prints the
    error and writes nothing; a folder that could not be created does not
    stop it. *)
Theorem WriteStoreDebugData_writes_a_line_then_closes
    (w : StandardWriter) (host templateID eventType data : text) :
  StandardWriter.storeResponse w = true ->
  exists path before,
    (before = [] \/ exists folder, before = [MakeFolder folder])
    /\ WriteStoreDebugData w host templateID eventType data
       = before
           ++ OpenAppend path
           :: match OpenFile path with
              | inl f => [WriteString f (data ++ [LF]); CloseSink f]
              | inr err => [Print (errorText err)]
              end.
Proof.
  intros Hstore. unfold WriteStoreDebugData. rewrite Hstore.
  set (subFolder := Join (StandardWriter.storeResponseDir w)
                       (sanitizeFileName IsWindows eventType)).
  exists (Join subFolder
            (sanitizeFileName IsWindows (host ++ str "_" ++ templateID)
               ++ str ".txt")),
         (if FolderExists subFolder then [] else [MakeFolder subFolder]).
  split; [destruct (FolderExists subFolder); eauto|].
  destruct (OpenFile _) as [f|err]; reflexivity.
Qed.

End DebugDataFacts.

(** X25 on a host whose files open. *)
Lemma WriteStoreDebugData_opens_witness :
  StandardWriter.storeResponse (Trial.reporter None None None) = true.
Proof.
  apply (WriteStoreDebugData_opens_a_sanitized_path
           (E := Trial.online) (H := Trial.host)
           (Trial.reporter None None None)
           (str "https://example.com") (str "cve-2021-1") (str "http") (str "body")
           (str "/tmp/responses/http/example_com_cve_2021_1.txt")).
  vm_compute. auto.
Defined.

(** X26 on a host whose files do not open. *)
Lemma WriteStoreDebugData_writes_witness :
  exists path before,
    WriteStoreDebugData (E := Trial.online) (H := Trial.readOnlyHost)
      (Trial.reporter None None None)
      (str "example.com") (str "t1") (str "http") (str "body")
    = before ++ [OpenAppend path; Print (str "permission denied")].
Proof.
  destruct (WriteStoreDebugData_writes_a_line_then_closes
              (E := Trial.online) (H := Trial.readOnlyHost)
              (Trial.reporter None None None)
              (str "example.com") (str "t1") (str "http") (str "body"))
    as (path & before & _ & Heq); [reflexivity|].
  exists path, before. rewrite Heq. reflexivity.
Defined.

(** ** [Request], whatever the encoder answers *)

Section RequestFrame.
Context {E : Env}.

(** X27.  Every effect of [Request] is a write of the one encoded record,
    to the trace sink or, for a non-nil error, to the error sink: nothing
    goes to the output file or the network, the lock is not taken, and a
    record that cannot be encoded is dropped without a trace. *)
Theorem Request_only_writes_the_record
    (w : StandardWriter) (templatePath input requestType : text)
    (requestErr : option error) (e : effect) :
  In e (Request w templatePath input requestType requestErr) ->
  let record :=
    JSONLogRequest.mk templatePath input
      (match requestErr with
       | Some err => errorText (rootCause err)
       | None => str "none"
       end) requestType in
  snd (marshalLogRequest record) = None
  /\ exists f,
       e = SinkWrite f (fst (marshalLogRequest record))
       /\ (StandardWriter.traceFile w = Some f
           \/ (StandardWriter.errorFile w = Some f /\ requestErr <> None)).
Proof.
  unfold Request.
  destruct (isNil _ && isNil _); [intros []|].
  replace (match UnwrapError requestErr with
           | Some unwrappedErr => errorText unwrappedErr
           | None => str "none"
           end)
    with (match requestErr with
          | Some err => errorText (rootCause err)
          | None => str "none"
          end) by (destruct requestErr; reflexivity).
  cbv zeta.
  destruct (marshalLogRequest _) as [data [err|]]; [intros []|].
  intros Hin. split; [reflexivity|]. cbn [fst].
  apply in_app_or in Hin as [Hin|Hin].
  - destruct (StandardWriter.traceFile w) as [f|]; [|destruct Hin].
    destruct Hin as [<-|[]]. eauto.
  - destruct requestErr as [err|]; [|destruct Hin].
    destruct (StandardWriter.errorFile w) as [g|]; [|destruct Hin].
    destruct Hin as [<-|[]]. exists g. split; [reflexivity|]. right. split; congruence.
Qed.

End RequestFrame.

(** X27 on a failed request traced to both sinks. *)
Lemma Request_only_writes_witness :
  snd (marshalLogRequest (Env := Trial.online)
         (JSONLogRequest.mk (str "t.yaml") (str "example.com")
            (str "connection refused") (str "http")))
  = None.
Proof.
  apply (Request_only_writes_the_record (E := Trial.online)
           (Scenario.writer true None (Some (FileHandle 2)) (Some (FileHandle 3)))
           (str "t.yaml") (str "example.com") (str "http")
           (Some Scenario.connectionRefused)
           (SinkWrite (FileHandle 3) (str "t.yaml connection refused"))).
  vm_compute. auto.
Defined.

(** ** [InternalWrappedEvent] *)

(** What [SetOperatorResult] stores is what [HasOperatorResult] then
    reports: true exactly for a non-nil result, whatever was stored before.
    The setter leaves the results, the internal event and the interactsh
    flag alone, so [HasResults] answers as before; it takes the write lock,
    the two readers the read lock, and each releases what it took. *)
Lemma SetOperatorResult_then_HasOperatorResult
    (iwe : InternalWrappedEvent) (operatorResult : option opaque) :
  let after := snd (SetOperatorResult iwe operatorResult) in
  snd (HasOperatorResult after) = negb (isNil operatorResult)
  /\ snd (HasResults after) = snd (HasResults iwe)
  /\ InternalWrappedEvent.InternalEvent after = InternalWrappedEvent.InternalEvent iwe
  /\ InternalWrappedEvent.UsesInteractsh after = InternalWrappedEvent.UsesInteractsh iwe
  /\ fst (SetOperatorResult iwe operatorResult) = [WLock; WUnlock]
  /\ fst (HasOperatorResult after) = [RLock; RUnlock]
  /\ fst (HasResults after) = [RLock; RUnlock].
Proof. cbv zeta. repeat split. Qed.
